(** * promptflow [_utils/tool_utils.py]: signature introspection, prompt-template
    inputs, dynamic-list validation.

    A shallow embedding of the functions of [tool_utils.py] and the proofs of
    the properties stated about them.

    Conventions of the embedding.
    - A Python [str] is a [string] of characters with code point below 128.
    - A Python [dict] whose iteration order is observed is an association
      list (insertion order, unique keys); a [dict] that is only looked up is
      a [gmap].
    - A function that can raise returns a [result]: [Ok v] or [Raise e]. *)

From Stdlib Require Import ZArith Strings.String Strings.Ascii Lists.List.
From Stdlib Require Import Sorting.Permutation Sorting.Sorted Lia DecimalString.
From stdpp Require Import base gmap strings list fin_maps.

Local Open Scope string_scope.
Local Open Scope list_scope.

(** ** Python values *)

(** The values the functions below inspect at run time.  A [float] is kept as
    its IEEE-754 binary64 bit pattern; an instance of any class that is not
    listed is a [PObject] carrying the class name. *)
#[warnings="-register-all"]
Inductive pyval : Type :=
| PNone
| PBool (b : bool)
| PInt (z : Z)
| PFloat (bits : Z)
| PStr (s : string)
| PList (items : list pyval)
| PTuple (items : list pyval)
| PDict (entries : list (pyval * pyval))
| PObject (cls : string).

(** The built-in classes that [isinstance] is asked about. *)
Inductive builtin : Type :=
| Bobject | Bstr | Bint | Bbool | Bfloat | Blist | Btuple | Bdict.

Definition builtin_name (b : builtin) : string :=
  match b with
  | Bobject => "object" | Bstr => "str" | Bint => "int" | Bbool => "bool"
  | Bfloat => "float" | Blist => "list" | Btuple => "tuple" | Bdict => "dict"
  end.

(** ** Types and annotations *)

(** A class object as [param_to_definition] sees it.  Whether a class is a
    connection is decided by [ConnectionType] (module [contracts.tool]). *)
Inductive ty : Type :=
| TEmpty                                       (* inspect.Parameter.empty *)
| TNoneType                                    (* type(None) *)
| TBuiltin (b : builtin)
| TEnum (name : string) (members : list pyval) (* an Enum class, member values in order *)
| TConnection (name : string)                  (* a registered connection class *)
| TCustomStrong (name : string)                (* a CustomStrongTypeConnection subclass *)
| TOther (name : string).                      (* any other class or typing alias *)

(** What an annotation (and the resolved value type) can be: one type object,
    a [typing.Union] with its members (flat, as [typing] keeps them), a
    Python list of types, or a [types.UnionType], the union written [X | Y],
    with its members. *)
Inductive anno : Type :=
| Plain (t : ty)
| Union (args : list ty)
| ListOf (types : list ty)
| UnionType (members : list ty).

Definition is_NoneType (t : ty) : bool :=
  match t with TNoneType => true | _ => false end.

(** [get_origin(anno) == Union]: the origin of [X | Y] is [types.UnionType],
    which is not [typing.Union]. *)
Definition origin_is_Union (a : anno) : bool :=
  match a with Union _ => true | _ => false end.

(** [get_args(anno)] *)
Definition get_args (a : anno) : list ty :=
  match a with Union args => args | UnionType members => members | _ => [] end.

(** The members of [typing.Union[..., None]]: [None] is not listed twice. *)
Definition add_NoneType (args : list ty) : list ty :=
  if List.existsb is_NoneType args then args else args ++ [TNoneType].

(** [typing.Optional[a]], that is [typing.Union[a, None]]: the members of a
    union argument, of either kind, are taken over, since a [typing.Union]
    never nests; [Optional[None]] is [NoneType] itself; an argument that is
    not a type is refused with a [TypeError] ([None] here). *)
Definition Optional (a : anno) : option anno :=
  match a with
  | Plain T => Some (if is_NoneType T then Plain TNoneType else Union [T; TNoneType])
  | Union args => Some (Union (add_NoneType args))
  | UnionType members => Some (Union (add_NoneType members))
  | ListOf _ => None
  end.

(** [resolve_annotation] *)
Definition resolve_annotation (a : anno) : anno :=
  if negb (origin_is_Union a) then a
  else
    let args := List.filter (fun arg => negb (is_NoneType arg)) (get_args a) in
    match args with
    | [t] => Plain t
    | _ => ListOf args
    end.


(** ** Errors *)

Inductive exn_class : Type :=
| ExceptionC                      (* the built-in Exception *)
| ValueErrorC
| ListFunctionResponseErrorC
| FunctionPathValidationErrorC
| OtherExceptionC (name : string).

(** An exception instance: its class and [str(e)]. *)
Record exn : Type := mk_exn { exn_cls : exn_class; exn_str : string }.

Inductive result (A : Type) : Type :=
| Ok (a : A)
| Raise (e : exn).
Arguments Ok {A} a.
Arguments Raise {A} e.

Definition bind {A B} (c : result A) (k : A -> result B) : result B :=
  match c with Ok a => k a | Raise e => Raise e end.

Notation "'let!' x ':=' c 'in' k" := (bind c (fun x => k))
  (at level 10, x name, c at level 100, k at level 200).

Definition is_Ok {A} (r : result A) : bool :=
  match r with Ok _ => true | Raise _ => false end.

Definition newline : string := String "010" "".
Definition dquote : string := String "034" "".

(** [DynamicListError.__init__]: the text every dynamic-list error carries. *)
Definition DynamicListError_msg (message : string) : string :=
  "Unable to display list of items due to '" ++ message ++ "'. " ++ newline ++
  "Please contact the tool author/support team for troubleshooting assistance.".

Definition ListFunctionResponseError (message : string) : exn :=
  mk_exn ListFunctionResponseErrorC (DynamicListError_msg message).

Definition FunctionPathValidationError (message : string) : exn :=
  mk_exn FunctionPathValidationErrorC (DynamicListError_msg message).

(** ** Strings *)

Definition nonempty (s : string) : bool :=
  match s with EmptyString => false | String _ _ => true end.

(** [str.find]: index of the first occurrence of [x] in [s], or -1. *)
Fixpoint find_from (x s : string) (i : Z) : Z :=
  if String.prefix x s then i
  else match s with
       | EmptyString => (-1)%Z
       | String _ s' => find_from x s' (i + 1)%Z
       end.

Definition str_find (s x : string) : Z := find_from x s 0.

(** [x in s] for strings. *)
Definition str_contains (x s : string) : bool := (0 <=? str_find s x)%Z.

(** [s.replace(old, new)]: every occurrence of [old], left to right, without
    overlap.  [skip] counts the characters of a replaced occurrence that are
    still to be passed over. *)
Fixpoint replace_aux (old new : string) (skip : nat) (s : string) : string :=
  match s with
  | EmptyString => if nonempty old then EmptyString else new
  | String c s' =>
      match skip with
      | S k => replace_aux old new k s'
      | O =>
          if String.prefix old s
          then new ++ (if nonempty old
                       then replace_aux old new (String.length old - 1) s'
                       else String c (replace_aux old new 0 s'))
          else String c (replace_aux old new 0 s')
      end
  end.

Definition str_replace (s old new : string) : string := replace_aux old new 0 s.

(** [str.isspace] on one character (code points below 128). *)
Definition is_space (c : ascii) : bool :=
  let n := nat_of_ascii c in
  (Nat.leb 9 n && Nat.leb n 13) || (Nat.leb 28 n && Nat.leb n 32).

Fixpoint lstrip (s : string) : string :=
  match s with
  | String c s' => if is_space c then lstrip s' else s
  | EmptyString => EmptyString
  end.

Fixpoint rstrip (s : string) : string :=
  match s with
  | EmptyString => EmptyString
  | String c s' =>
      match rstrip s' with
      | EmptyString => if is_space c then EmptyString else String c EmptyString
      | r => String c r
      end
  end.

(** [str.strip()] *)
Definition strip (s : string) : string := rstrip (lstrip s).

(** ** Ordered dictionaries *)

Definition dict (V : Type) : Type := list (string * V).

Definition dict_keys {V} (d : dict V) : list string := List.map fst d.

Fixpoint dict_get {V} (d : dict V) (k : string) : option V :=
  match d with
  | [] => None
  | (k', v) :: r => if String.eqb k' k then Some v else dict_get r k
  end.

Definition dict_contains {V} (d : dict V) (k : string) : bool :=
  match dict_get d k with Some _ => true | None => false end.

(** [d[k] = v]: an existing key keeps its place, a new key goes last. *)
Fixpoint dict_set {V} (d : dict V) (k : string) (v : V) : dict V :=
  match d with
  | [] => [(k, v)]
  | (k', v') :: r =>
      if String.eqb k' k then (k', v) :: r else (k', v') :: dict_set r k v
  end.

(** [d.update(other)] *)
Definition dict_update {V} (d other : dict V) : dict V :=
  List.fold_left (fun acc kv => dict_set acc (fst kv) (snd kv)) other d.

(** [{k: f(k) for k in keys}] *)
Definition dict_from_keys {V} (f : string -> V) (keys : list string) : dict V :=
  List.fold_left (fun acc k => dict_set acc k (f k)) keys [].

(** ** Contracts used by the describers *)

(** Modelled from the spec: [ValueType] of [contracts/tool.py], the closed
    vocabulary of declared value types; each member is named by its string
    value. *)
Inductive ValueType : Type :=
| INT | DOUBLE | BOOL | STRING | SECRET | PROMPT_TEMPLATE
| LIST | OBJECT | FILE_PATH | IMAGE.

Definition ValueType_value (v : ValueType) : string :=
  match v with
  | INT => "int" | DOUBLE => "double" | BOOL => "bool" | STRING => "string"
  | SECRET => "secret" | PROMPT_TEMPLATE => "prompt_template"
  | LIST => "list" | OBJECT => "object" | FILE_PATH => "file_path"
  | IMAGE => "image"
  end.

Definition all_ValueTypes : list ValueType :=
  [INT; DOUBLE; BOOL; STRING; SECRET; PROMPT_TEMPLATE; LIST; OBJECT; FILE_PATH; IMAGE].

(** [ValueType(s)]: the member whose value is [s]; [ValueError] when there is
    none. *)
Definition ValueType_of_value (s : string) : result ValueType :=
  match List.find (fun v => String.eqb (ValueType_value v) s) all_ValueTypes with
  | Some v => Ok v
  | None =>
      Raise (mk_exn ValueErrorC ("'" ++ s ++ "' is not a valid ValueType"))
  end.

(** An entry of [InputDefinition.type]: a [ValueType] member or a class
    name. *)
Inductive type_tag : Type :=
| TagValue (v : ValueType)
| TagName (name : string).

Record InputDefinition : Type := mk_InputDefinition {
  type : list type_tag;
  default : option pyval;
  description : option string;
  enum : option (list string);
  custom_type : option (list string)
}.

(** [InputDefinition(type=typ)], the other fields at their default [None]. *)
Definition InputDefinition_of_type (typ : list type_tag) : InputDefinition :=
  mk_InputDefinition typ None None None None.

(** [t.__name__] *)
Definition ty_name (t : ty) : string :=
  match t with
  | TEmpty => "_empty"
  | TNoneType => "NoneType"
  | TBuiltin b => builtin_name b
  | TEnum n _ => n
  | TConnection n => n
  | TCustomStrong n => n
  | TOther n => n
  end.

(** Modelled from the spec: [ConnectionType.is_custom_strong_type] of
    [contracts/tool.py], the capability check "is a custom strong-typed
    connection". *)
Definition is_custom_strong_type (t : ty) : bool :=
  match t with TCustomStrong _ => true | _ => false end.

(** Modelled from the spec: [ConnectionType.is_connection_value] of
    [contracts/tool.py], the capability check "is a connection"; a custom
    strong-typed connection is a connection. *)
Definition is_connection_type (t : ty) : bool :=
  match t with TConnection _ | TCustomStrong _ => true | _ => false end.

(** [ConnectionType.is_connection_value] on a resolved value type: a list of
    candidates is not itself a connection. *)
Definition is_connection_value (value_type : anno) : bool :=
  match value_type with Plain t => is_connection_type t | _ => false end.

(** [ConnectionType.is_custom_strong_type] on a resolved value type. *)
Definition is_custom_strong_value (value_type : anno) : bool :=
  match value_type with Plain t => is_custom_strong_type t | _ => false end.

(** [value_type.__name__]; only a single type has one. *)
Definition value_name (value_type : anno) : string :=
  match value_type with Plain t => ty_name t | _ => "" end.

(** ** Parameters ([inspect.Parameter] is [Param] here) *)

Inductive param_kind : Type :=
| POSITIONAL_ONLY | POSITIONAL_OR_KEYWORD | VAR_POSITIONAL | KEYWORD_ONLY | VAR_KEYWORD.

(** A parameter default as the describer observes it: absent, [None], a member
    of an Enum class with its [value], or any other value with its class and
    its [str()]. *)
Inductive default_value : Type :=
| DEmpty
| DNone
| DEnumMember (cls : ty) (value : pyval)
| DInstance (cls : ty) (text : string).

Record Param : Type := mk_Param {
  param_default : default_value;
  annotation : anno;
  kind : param_kind
}.

(** [value_to_str] *)
Definition value_to_str (val : default_value) : option pyval :=
  match val with
  | DEmpty => None
  | DNone => Some (PStr "")
  | DEnumMember _ value => Some value
  | DInstance _ text => Some (PStr text)
  end.

(** [default_value.__class__ if isinstance(default_value, Enum) else
    type(default_value)] *)
Definition class_of_default (val : default_value) : ty :=
  match val with
  | DEmpty => TOther "type"
  | DNone => TNoneType
  | DEnumMember cls _ => cls
  | DInstance cls _ => cls
  end.

Definition is_empty_default (val : default_value) : bool :=
  match val with DEmpty => true | _ => false end.

Definition is_empty_anno (a : anno) : bool :=
  match a with Plain TEmpty => true | _ => false end.

(** The state of the loop over the candidates of a union:
    [custom_connection_added], [typ], [custom_type_conn]. *)
Definition conn_state : Type := bool * list type_tag * list string.

(** One iteration of [for t in value_type]. *)
Definition conn_step (st : conn_state) (t : ty) : conn_state :=
  let '(custom_connection_added, typ, custom_type_conn) := st in
  if is_custom_strong_type t then
    ((true,
      if negb custom_connection_added then typ ++ [TagName "CustomConnection"] else typ),
     custom_type_conn ++ [ty_name t])
  else if negb (String.eqb (ty_name t) "CustomConnection") then
    (custom_connection_added, typ ++ [TagName (ty_name t)], custom_type_conn)
  else if negb custom_connection_added then
    (true, typ ++ [TagName (ty_name t)], custom_type_conn)
  else st.

(** The value type of a parameter before enums are looked at: the resolved
    annotation, or the class of the default when there is a default and no
    annotation. *)
Definition inferred_value_type (param : Param) : anno :=
  let default_value := param_default param in
  let value_type := resolve_annotation (annotation param) in
  if negb (is_empty_default default_value) && is_empty_anno value_type
  then Plain (class_of_default default_value)
  else value_type.

(** The candidates of a union that put the generic marker in the tag list: a
    custom strong-typed connection, or the class named [CustomConnection]. *)
Definition is_marker (t : ty) : bool :=
  is_custom_strong_type t || String.eqb (ty_name t) "CustomConnection".

(** Tag names of the candidates once the marker is in the list: the marker
    candidates add nothing more. *)
Definition names_after_marker (candidates : list ty) : list string :=
  List.map ty_name (List.filter (fun t => negb (is_marker t)) candidates).

(** Tag names of the candidates: each one's own name in order, the first
    marker candidate giving the marker and the later ones nothing. *)
Fixpoint tag_names (candidates : list ty) : list string :=
  match candidates with
  | [] => []
  | t :: rest =>
      if is_marker t then "CustomConnection" :: names_after_marker rest
      else ty_name t :: tag_names rest
  end.

Section Describers.

(** Python's [str()] on a value. *)
Variable py_str : pyval -> string.

(** [ValueType.from_type] of [contracts/tool.py]: the fixed mapping from a
    type to its declared value type. *)
Variable from_type : anno -> ValueType.

(** [param_to_definition] *)
Definition param_to_definition (param : Param) (gen_custom_type_conn : bool)
  : InputDefinition * bool :=
  let default_value := param_default param in
  let value_type := inferred_value_type param in
  let '(enum, value_type) :=
    match value_type with
    | Plain (TEnum _ members) =>
        (Some (List.map py_str members), Plain (TBuiltin Bstr))
    | _ => (None, value_type)
    end in
  let '(typ, custom_type_conn, is_connection) :=
    if is_connection_value value_type then
      if is_custom_strong_value value_type
      then ([TagName "CustomConnection"], Some [value_name value_type], true)
      else ([TagName (value_name value_type)], None, true)
    else
      match value_type with
      | ListOf candidates =>
          if negb (List.forallb is_connection_type candidates)
          then ([TagValue OBJECT], None, false)
          else
            let '(_, typ, custom_type_conn) :=
              List.fold_left conn_step candidates (false, [], []) in
            (typ, Some custom_type_conn, true)
      | _ => ([TagValue (from_type value_type)], None, false)
      end in
  let custom_type_conn :=
    if negb gen_custom_type_conn then None else custom_type_conn in
  (mk_InputDefinition typ (value_to_str default_value) None enum custom_type_conn,
   is_connection).

End Describers.

(** ** Callables and tool definitions *)

(** A function object: what [inspect] and the dunder attributes give. *)
Record pyfunc : Type := mk_pyfunc {
  qualname : string;                 (* __qualname__ *)
  name : string;                     (* __name__ *)
  module : string;                   (* __module__ *)
  getdoc : option string;            (* inspect.getdoc *)
  parameters : dict Param            (* inspect.signature(f).parameters *)
}.

(** A callable handed to the builder: the function, and the function its
    [__original_function] attribute refers to when it has one. *)
Record Callable : Type := mk_Callable {
  func : pyfunc;
  original_function : option pyfunc
}.

Record Tool : Type := mk_Tool {
  tool_name : string;
  tool_type : option string;
  tool_inputs : dict InputDefinition;
  tool_outputs : dict unit;
  tool_description : option string;
  tool_module : string;
  class_name : option string;
  tool_function : string;
  is_builtin : bool;
  stage : string
}.

(** The function behind a callable: [f.__original_function] when present. *)
Definition unwrapped (c : Callable) : pyfunc :=
  match original_function c with Some g => g | None => func c end.

Definition is_var_param (v : Param) : bool :=
  match kind v with VAR_KEYWORD | VAR_POSITIONAL => true | _ => false end.

(** [repr] of a string without quotes or escapes, as an identifier is. *)
Definition repr_name (s : string) : string := "'" ++ s ++ "'".

Section Builders.

Variable py_str : pyval -> string.
Variable from_type : anno -> ValueType.

(** The loop of [function_to_interface] over [all_inputs.items()]. *)
Fixpoint resolve_inputs (gen_custom_type_conn : bool) (all_inputs : dict Param)
    (input_defs : dict InputDefinition) (connection_types : list (list type_tag))
  : dict InputDefinition * list (list type_tag) :=
  match all_inputs with
  | [] => (input_defs, connection_types)
  | (k, v) :: rest =>
      let '(input_def, is_connection) :=
        param_to_definition py_str from_type v gen_custom_type_conn in
      resolve_inputs gen_custom_type_conn rest
        (dict_set input_defs k input_def)
        (if is_connection then connection_types ++ [type input_def]
         else connection_types)
  end.

(** [function_to_interface] *)
Definition function_to_interface (f : pyfunc) (initialize_inputs : option (dict Param))
    (gen_custom_type_conn : bool)
  : result (dict InputDefinition * dict unit * list (list type_tag)) :=
  let sign := parameters f in
  let! all_inputs :=
    match initialize_inputs with
    | Some ((_ :: _) as init) =>
        if List.existsb nonempty
             (List.filter (fun k => dict_contains sign k) (dict_keys init))
        then Raise (mk_exn ExceptionC
               ("Duplicate inputs found from " ++ repr_name (name f) ++ " and " ++
                dquote ++ "__init__()" ++ dquote ++ "!"))
        else Ok init
    | _ => Ok []
    end in
  let all_inputs :=
    dict_update all_inputs
      (List.filter
         (fun kv => negb (String.eqb (fst kv) "self") && negb (is_var_param (snd kv)))
         sign) in
  let '(input_defs, connection_types) :=
    resolve_inputs gen_custom_type_conn all_inputs [] [] in
  Ok (input_defs, [], connection_types).

(** [function_to_tool_definition] *)
Definition function_to_tool_definition (c : Callable) (type : option string)
    (initialize_inputs : option (dict Param)) : result Tool :=
  let f := unwrapped c in
  let! interface := function_to_interface f initialize_inputs false in
  let '(inputs, outputs, _) := interface in
  let class_name :=
    if str_contains "." (qualname f)
    then Some (str_replace (qualname f) ("." ++ name f) "")
    else None in
  Ok (mk_Tool (qualname f) type inputs outputs
        (match getdoc f with Some "" => None | d => d end)
        (module f) class_name (name f) true "test").

End Builders.

(** ** Template Variable Extractor *)

(** [sorted(xs, key=key)]: Python's sort is stable, so it is the stable
    insertion sort. *)
Fixpoint insert_by_key (key : string -> Z) (x : string) (l : list string) : list string :=
  match l with
  | [] => [x]
  | y :: r => if (key x <=? key y)%Z then x :: l else y :: insert_by_key key x r
  end.

Definition sorted_by_key (key : string -> Z) (l : list string) : list string :=
  List.fold_right (insert_by_key key) [] l.

(** The longest prefix of characters satisfying [p], and the rest. *)
Fixpoint span (p : ascii -> bool) (s : string) : string * string :=
  match s with
  | EmptyString => (EmptyString, EmptyString)
  | String c s' =>
      if p c then let '(a, b) := span p s' in (String c a, b)
      else (EmptyString, s)
  end.

(** Consume the literal [lit] at the head of [s]. *)
Fixpoint expect (lit s : string) : option string :=
  match lit with
  | EmptyString => Some s
  | String c lit' =>
      match s with
      | String d s' => if Ascii.eqb c d then expect lit' s' else None
      | EmptyString => None
      end
  end.

Definition not_brace (c : ascii) : bool :=
  negb (Ascii.eqb c "{") && negb (Ascii.eqb c "}").

Fixpoint last_char (s : string) : string :=
  match s with
  | EmptyString => EmptyString
  | String c EmptyString => s
  | String _ s' => last_char s'
  end.

(** What group 2 captures from the brace-free run between the double braces,
    the white space before it being matched greedily: the run without its leading white space, or its last
    character when it is white space only. *)
Definition group2_of_run (run : string) : string :=
  match lstrip run with
  | EmptyString => last_char run
  | r => r
  end.

(** A match of the image pattern: groups 1 and 2 and the text after it. *)
Record image_match : Type := mk_image_match {
  group1 : string;
  group2 : string;
  after : string
}.

(** The image pattern anchored at the head of [s]: an exclamation mark, an
    opening bracket, group 1 (white space, the word image, white space), a
    closing bracket, an opening parenthesis, two opening braces, white space,
    group 2 (one or more characters that are not braces), white space, two
    closing braces, a closing parenthesis.  All repetitions are greedy. *)
Definition match_image_at (s : string) : option image_match :=
  match expect "![" s with
  | None => None
  | Some s1 =>
      let '(ws1, s2) := span is_space s1 in
      match expect "image" s2 with
      | None => None
      | Some s3 =>
          let '(ws2, s4) := span is_space s3 in
          match expect "]({{" s4 with
          | None => None
          | Some s5 =>
              let '(run, s6) := span not_brace s5 in
              if negb (nonempty run) then None
              else
                match expect "}})" s6 with
                | None => None
                | Some s7 =>
                    Some (mk_image_match (ws1 ++ "image" ++ ws2) (group2_of_run run) s7)
                end
          end
      end
  end.

(** [re.finditer(pattern, s)]: the matches from left to right, without
    overlap.  [skip] counts the characters of the last match still to be
    passed over. *)
Fixpoint finditer_aux (skip : nat) (s : string) : list image_match :=
  match s with
  | EmptyString => []
  | String _ s' =>
      match skip with
      | S k => finditer_aux k s'
      | O =>
          match match_image_at s with
          | Some m =>
              m :: finditer_aux (String.length s - String.length (after m) - 1) s'
          | None => finditer_aux 0 s'
          end
      end
  end.

Definition finditer (s : string) : list image_match := finditer_aux 0 s.

(** The loop [for match in matches]. *)
Fixpoint apply_matches (matches : list image_match) (result_dict : dict InputDefinition)
  : result (dict InputDefinition) :=
  match matches with
  | [] => Ok result_dict
  | m :: rest =>
      let input_name := strip (group2 m) in
      let! vt := ValueType_of_value (strip (group1 m)) in
      apply_matches rest
        (dict_set result_dict input_name (InputDefinition_of_type [TagValue vt]))
  end.

(** [get_inputs_for_prompt_template].  [undeclared] is the set
    [meta.find_undeclared_variables(env.parse(template_str))] that jinja2
    reports, listed in the order the set is iterated. *)
Definition get_inputs_for_prompt_template (undeclared : list string) (template_str : string)
  : result (dict InputDefinition) :=
  let inputs := sorted_by_key (fun x => str_find template_str x) undeclared in
  let result_dict :=
    dict_from_keys (fun _ => InputDefinition_of_type [TagValue STRING]) inputs in
  apply_matches (finditer template_str) result_dict.

(** ** Dynamic List Response Validator *)

(** The built-in class a value is a direct instance of. *)
Definition class_of (v : pyval) : option builtin :=
  match v with
  | PNone | PObject _ => None
  | PBool _ => Some Bbool
  | PInt _ => Some Bint
  | PFloat _ => Some Bfloat
  | PStr _ => Some Bstr
  | PList _ => Some Blist
  | PTuple _ => Some Btuple
  | PDict _ => Some Bdict
  end.

Definition builtin_eqb (a b : builtin) : bool :=
  match a, b with
  | Bobject, Bobject | Bstr, Bstr | Bint, Bint | Bbool, Bbool
  | Bfloat, Bfloat | Blist, Blist | Btuple, Btuple | Bdict, Bdict => true
  | _, _ => false
  end.

(** [issubclass] among the built-ins: every class derives from [object] and
    [bool] derives from [int]. *)
Definition issubclass (c d : builtin) : bool :=
  builtin_eqb c d || builtin_eqb d Bobject || (builtin_eqb c Bbool && builtin_eqb d Bint).

(** [isinstance(v, d)] *)
Definition isinstance (v : pyval) (d : builtin) : bool :=
  match class_of v with
  | Some c => issubclass c d
  | None => builtin_eqb d Bobject
  end.

(** [bool(v)] *)
Definition truthy (v : pyval) : bool :=
  match v with
  | PNone => false
  | PBool b => b
  | PInt z => negb (z =? 0)%Z
  | PFloat bits => negb (Z.land bits (2 ^ 63 - 1) =? 0)%Z
  | PStr s => nonempty s
  | PList l | PTuple l => match l with [] => false | _ => true end
  | PDict d => match d with [] => false | _ => true end
  | PObject _ => true
  end.

(** ["value" in item] *)
Definition has_value_key (entries : list (pyval * pyval)) : bool :=
  List.existsb
    (fun kv => match fst kv with PStr k => String.eqb k "value" | _ => false end)
    entries.

Section Validator.

Variable py_str : pyval -> string.

(** [is_json_serializable] of [promptflow._utils.utils]. *)
Variable is_json_serializable : pyval -> bool.

(** The checks on one [key, value] of an item. *)
Definition check_entry (f : string) (kv : pyval * pyval) : result unit :=
  let '(key, value) := kv in
  if negb (isinstance key Bstr) then
    Raise (ListFunctionResponseError
             (f ++ " response dict key must be a string. " ++ py_str key ++
              " is not a string."))
  else if negb (is_json_serializable value) then
    Raise (ListFunctionResponseError
             (f ++ " response dict value " ++ py_str value ++
              " is not json serializable."))
  else if negb (List.existsb (isinstance value) [Bstr; Bint; Bfloat; Blist; Bdict]) then
    Raise (ListFunctionResponseError
             (f ++ " response dict value must be a string, int, float, list or dict. " ++
              py_str value ++ " is not supported."))
  else Ok tt.

(** [for key, value in item.items()] *)
Fixpoint check_entries (f : string) (entries : list (pyval * pyval)) : result unit :=
  match entries with
  | [] => Ok tt
  | kv :: rest => let! _u := check_entry f kv in check_entries f rest
  end.

(** The body of [for item in response]. *)
Definition check_item (f : string) (item : pyval) : result unit :=
  match item with
  | PDict entries =>
      if negb (has_value_key entries) then
        Raise (ListFunctionResponseError (f ++ " response dict must have 'value' key."))
      else check_entries f entries
  | _ =>
      Raise (ListFunctionResponseError
               (f ++ " response must be a list of dict. " ++ py_str item ++
                " is not a dict."))
  end.

Fixpoint check_items (f : string) (items : list pyval) : result unit :=
  match items with
  | [] => Ok tt
  | item :: rest => let! _u := check_item f item in check_items f rest
  end.

(** [validate_dynamic_list_func_response_type] *)
Definition validate_dynamic_list_func_response_type (response : pyval) (f : string)
  : result unit :=
  if negb (truthy response) then
    Raise (ListFunctionResponseError (f ++ " response can not be empty."))
  else
    match response with
    | PList items => check_items f items
    | _ => Raise (ListFunctionResponseError (f ++ " response must be a list."))
    end.

End Validator.

(** ** Parameter Augmenter *)

Definition is_var_keyword (p : Param) : bool :=
  match kind p with VAR_KEYWORD => true | _ => false end.

(** [any([param.kind == inspect.Parameter.VAR_KEYWORD for _, param in
    func_sig_params.items()])] *)
Definition has_kwargs_param (func_sig_params : gmap string Param) : bool :=
  List.existsb (fun kv => is_var_keyword (snd kv)) (map_to_list func_sig_params).

Section Augmenter.

(** The values of the argument dictionaries. *)
Context {V : Type}.

(** [d if d is not None else {}] *)
Definition or_empty (d : option (gmap string V)) : gmap string V :=
  match d with Some m => m | None => ∅ end.

(** [append_workspace_triple_to_func_input_params]; an argument that may be
    [None] is an [option]. *)
Definition append_workspace_triple_to_func_input_params
    (func_sig_params : gmap string Param)
    (func_input_params_dict : option (gmap string V))
    (ws_triple_dict : option (gmap string V)) : gmap string V :=
  let ws_triple_dict := or_empty ws_triple_dict in
  let func_input_params_dict := or_empty func_input_params_dict in
  let has_kwargs_param := has_kwargs_param func_sig_params in
  let avail_ws_info_dict :=
    if negb has_kwargs_param
    then filter (fun kv => fst kv ∈ dom func_sig_params) ws_triple_dict
    else ws_triple_dict in
  (* dict(avail_ws_info_dict, **func_input_params_dict) *)
  func_input_params_dict ∪ avail_ws_info_dict.

End Augmenter.

(** ** Function Path Loader *)

(** [func_path.rsplit(".", 1)] when it gives two parts: the text before the
    last dot and the text after it. *)
Fixpoint rsplit_dot (s : string) : option (string * string) :=
  match s with
  | EmptyString => None
  | String c r =>
      match rsplit_dot r with
      | Some (a, b) => Some (String c a, b)
      | None => if Ascii.eqb c "." then Some (EmptyString, r) else None
      end
  end.

Definition format_hint : string := "Expected format: format 'my_module.my_func'. ".

Section Loader.

(** The interpreter state the loader runs in: importing a module and
    fetching an attribute either give a value or raise an [Exception]. *)
Variables pymodule pyobject : Type.
Variable import_module : string -> result pymodule.
Variable getattr : pymodule -> string -> result pyobject.
Variable callable : pyobject -> bool.
Variable object_str : pyobject -> string.

(** The body of the [try]. *)
Definition load_function_body (func_path : string) : result pyobject :=
  match rsplit_dot func_path with
  | None =>
      Raise (mk_exn ValueErrorC "not enough values to unpack (expected 2, got 1)")
  | Some (module_name, func_name) =>
      let! module := import_module module_name in
      let! f := getattr module func_name in
      if callable f then Ok f
      else Raise (FunctionPathValidationError ("'" ++ object_str f ++ "' is not callable."))
  end.

(** [load_function_from_function_path] *)
Definition load_function_from_function_path (func_path : string) : result pyobject :=
  match load_function_body func_path with
  | Ok f => Ok f
  | Raise e =>
      Raise (FunctionPathValidationError
               ("Failed to parse function from function path: '" ++ func_path ++ "'. " ++
                format_hint ++ "Detailed error: " ++ exn_str e))
  end.

(** The four ways the body of the [try] fails, with the error it raises. *)
Inductive load_failure (func_path : string) (e : exn) : Prop :=
| split_fails :
    rsplit_dot func_path = None ->
    exn_cls e = ValueErrorC ->
    load_failure func_path e
| import_fails module_name func_name :
    rsplit_dot func_path = Some (module_name, func_name) ->
    import_module module_name = Raise e ->
    load_failure func_path e
| lookup_fails module_name func_name module :
    rsplit_dot func_path = Some (module_name, func_name) ->
    import_module module_name = Ok module ->
    getattr module func_name = Raise e ->
    load_failure func_path e
| not_callable module_name func_name module f :
    rsplit_dot func_path = Some (module_name, func_name) ->
    import_module module_name = Ok module ->
    getattr module func_name = Ok f ->
    callable f = false ->
    e = FunctionPathValidationError ("'" ++ object_str f ++ "' is not callable.") ->
    load_failure func_path e.

(** The path resolves to the callable [f]. *)
Definition resolves_to (func_path : string) (f : pyobject) : Prop :=
  exists module_name func_name module,
    rsplit_dot func_path = Some (module_name, func_name) /\
    import_module module_name = Ok module /\
    getattr module func_name = Ok f /\
    callable f = true.

End Loader.

(** ** Instances of the external functions *)

(** Python's [str()] on [None], booleans, integers and strings; the examples
    below apply it to no other value. *)
Definition str_of_scalar (v : pyval) : string :=
  match v with
  | PNone => "None"
  | PBool true => "True"
  | PBool false => "False"
  | PInt z => NilZero.string_of_int (Z.to_int z)
  | PStr s => s
  | _ => ""
  end.

(** Modelled from the spec: [ValueType.from_type] of [contracts/tool.py], the
    fixed type-name mapping; a type it does not list falls into the generic
    object bucket. *)
Definition from_type_by_name (value_type : anno) : ValueType :=
  match value_type with
  | Plain (TBuiltin Bint) => INT
  | Plain (TBuiltin Bfloat) => DOUBLE
  | Plain (TBuiltin Bbool) => BOOL
  | Plain (TBuiltin Bstr) => STRING
  | Plain (TBuiltin Blist) => LIST
  | Plain (TOther "Secret") => SECRET
  | Plain (TOther "PromptTemplate") => PROMPT_TEMPLATE
  | Plain (TOther "FilePath") => FILE_PATH
  | Plain (TOther "Image") => IMAGE
  | _ => OBJECT
  end.

(** Modelled from the spec: [is_json_serializable] of
    [promptflow/_utils/utils.py], the JSON-serializability predicate:
    [json.dumps] accepts [None], booleans, numbers, strings, lists and tuples
    of such values, and dictionaries of them keyed by strings, numbers,
    booleans or [None]. *)
Fixpoint json_serializable (v : pyval) : bool :=
  match v with
  | PNone | PBool _ | PInt _ | PFloat _ | PStr _ => true
  | PList items | PTuple items => List.forallb json_serializable items
  | PDict entries =>
      List.forallb
        (fun kv =>
           match fst kv with
           | PNone | PBool _ | PInt _ | PFloat _ | PStr _ => json_serializable (snd kv)
           | _ => false
           end)
        entries
  | PObject _ => false
  end.

(** A small interpreter state for the examples: the module [os] with the
    function [getcwd] and the string [sep]. *)
Definition sample_import (module_name : string) : result string :=
  if String.eqb module_name "os" then Ok "os"
  else Raise (mk_exn (OtherExceptionC "ModuleNotFoundError")
                ("No module named '" ++ module_name ++ "'")).

Definition sample_getattr (module attr : string) : result string :=
  if String.eqb attr "getcwd" || String.eqb attr "sep" then Ok attr
  else Raise (mk_exn (OtherExceptionC "AttributeError")
                ("module '" ++ module ++ "' has no attribute '" ++ attr ++ "'")).

Definition sample_callable (object : string) : bool := String.eqb object "getcwd".

(** ** The response contract of the dynamic list validator *)

(** The value's type is one of string, integer, floating-point, list and
    mapping (the allowed set as the documentation words it). *)
Definition type_in_allowed_set (v : pyval) : bool :=
  match v with
  | PStr _ | PInt _ | PFloat _ | PList _ | PDict _ => true
  | _ => false
  end.

Definition is_boolean (v : pyval) : bool :=
  match v with PBool _ => true | _ => false end.

(** The value is an instance of one of the five classes, booleans being
    integers. *)
Definition instance_of_allowed (v : pyval) : bool :=
  type_in_allowed_set v || is_boolean v.

Section Contract.

Variable is_json_serializable : pyval -> bool.

(** Which values an entry may carry. *)
Variable allowed : pyval -> bool.

Definition entry_conforms (kv : pyval * pyval) : bool :=
  match fst kv with
  | PStr _ => is_json_serializable (snd kv) && allowed (snd kv)
  | _ => false
  end.

Definition item_conforms (item : pyval) : bool :=
  match item with
  | PDict entries => has_value_key entries && List.forallb entry_conforms entries
  | _ => false
  end.

(** A non-empty list whose elements are all conforming records. *)
Definition response_conforms (response : pyval) : bool :=
  match response with
  | PList (item :: rest) => List.forallb item_conforms (item :: rest)
  | _ => false
  end.

End Contract.

(** The outcome is a response-shape error. *)
Definition is_response_error (r : result unit) : Prop :=
  match r with
  | Ok _ => False
  | Raise e => exn_cls e = ListFunctionResponseErrorC
  end.

(** ** Keys of the template inputs *)

(** The names the image matches of a template assign to, in match order. *)
Definition image_names (template_str : string) : list string :=
  List.map (fun m => strip (group2 m)) (finditer template_str).

(** The names of [names] that are not among [known], each at its first
    occurrence: the keys that assigning to [names] adds to a dictionary whose
    keys are [known]. *)
Fixpoint new_keys (known names : list string) : list string :=
  match names with
  | [] => []
  | n :: rest =>
      if List.existsb (String.eqb n) known then new_keys known rest
      else n :: new_keys (known ++ [n]) rest
  end.

(** [x] sorts no later than [y]. *)
Definition key_le (key : string -> Z) (x y : string) : Prop := (key x <= key y)%Z.

Fixpoint all_space (s : string) : bool :=
  match s with
  | EmptyString => true
  | String c s' => is_space c && all_space s'
  end.

Definition image_definition : InputDefinition := InputDefinition_of_type [TagValue IMAGE].
Definition string_definition : InputDefinition := InputDefinition_of_type [TagValue STRING].

(** ** Example inputs *)

(** The template of the documentation example. *)
Definition example_template : string :=
  "Prompt with image input ![image]({{image_input}}) and string input {{str_input}}".

(** A method [run] of a class [run_all] nested in a class [Tools]. *)
Definition nested_method : Callable :=
  mk_Callable
    (mk_pyfunc "Tools.run_all.run" "run" "my_tools" None
       [("self", mk_Param DEmpty (Plain TEmpty) POSITIONAL_OR_KEYWORD);
        ("text", mk_Param DEmpty (Plain (TBuiltin Bstr)) POSITIONAL_OR_KEYWORD)])
    None.

(** ** The steps of the parameter describer *)

Section DescriberSteps.

Variable py_str : pyval -> string.
Variable from_type : anno -> ValueType.

(** The enum step: the member values of an Enum class, and the value type
    that is classified afterwards. *)
Definition enum_step (value_type : anno) : option (list string) * anno :=
  match value_type with
  | Plain (TEnum _ members) =>
      (Some (List.map py_str members), Plain (TBuiltin Bstr))
  | _ => (None, value_type)
  end.

(** The classification step: the tag list, the custom types and the
    connection flag of a value type. *)
Definition classify (value_type : anno) : list type_tag * option (list string) * bool :=
  if is_connection_value value_type then
    if is_custom_strong_value value_type
    then ([TagName "CustomConnection"], Some [value_name value_type], true)
    else ([TagName (value_name value_type)], None, true)
  else
    match value_type with
    | ListOf candidates =>
        if negb (List.forallb is_connection_type candidates)
        then ([TagValue OBJECT], None, false)
        else
          let '(_, typ, custom_type_conn) :=
            List.fold_left conn_step candidates (false, [], []) in
          (typ, Some custom_type_conn, true)
    | _ => ([TagValue (from_type value_type)], None, false)
    end.

End DescriberSteps.

Definition is_name_tag (t : type_tag) : bool :=
  match t with TagName _ => true | TagValue _ => false end.

(** ** The inputs of an interface *)

(** The initializer inputs that are looked at: [None] and the empty mapping
    give none. *)
Definition initializer_inputs (initialize_inputs : option (dict Param)) : dict Param :=
  match initialize_inputs with Some init => init | None => [] end.

(** The parameters of the signature that become inputs. *)
Definition signature_inputs (f : pyfunc) : dict Param :=
  List.filter
    (fun kv => negb (String.eqb (fst kv) "self") && negb (is_var_param (snd kv)))
    (parameters f).

(** The initializer inputs followed by the signature inputs. *)
Definition declared_inputs (f : pyfunc) (initialize_inputs : option (dict Param))
  : dict Param :=
  initializer_inputs initialize_inputs ++ signature_inputs f.

(** An initializer input has the name of a parameter of the signature. *)
Definition has_duplicate_input (f : pyfunc) (initialize_inputs : option (dict Param)) : Prop :=
  exists k, nonempty k = true /\
            In k (dict_keys (initializer_inputs initialize_inputs)) /\
            In k (dict_keys (parameters f)).

(** ** Prompt parameter of a provider *)

(** Modelled from the spec: the class [PromptTemplate] of
    [contracts/types.py], told from the other classes by its name. *)
Definition is_PromptTemplate (annotation : anno) : bool :=
  match annotation with
  | Plain (TOther n) => String.eqb n "PromptTemplate"
  | _ => false
  end.

(** [get_prompt_param_name_from_func]; the function is given by its
    [__annotations__]. *)
Fixpoint get_prompt_param_name_from_func (annotations : dict anno) : option string :=
  match annotations with
  | [] => None
  | (k, annotation) :: rest =>
      if is_PromptTemplate annotation then Some k
      else get_prompt_param_name_from_func rest
  end.

(** A connection handed to the initializer of the class of [nested_method]. *)
Definition sample_initializer : dict Param :=
  [("connection",
    mk_Param DEmpty (Plain (TConnection "AzureOpenAIConnection")) POSITIONAL_OR_KEYWORD)].

(** The fixed remediation hint of the dynamic-list errors. *)
Definition remediation_hint : string :=
  "Please contact the tool author/support team for troubleshooting assistance.".

(** ** Test fixture [setup_local_connection] ([tests/sdk_pfs_test/conftest.py]) *)

(** The module-level flag [_connection_setup] and the calls of
    [pf_client.connections.create_or_update] made so far, each with the name
    and the data of the connection it was given. *)
Record fixture_state : Type := mk_fixture_state {
  connection_setup : bool;
  created : list (string * dict pyval)
}.

(** [_dct["type"] == "BingConnection"], or the [KeyError] of the lookup. *)
Definition is_bing (dct : dict pyval) : result bool :=
  match dict_get dct "type" with
  | Some (PStr t) => Ok (String.eqb t "BingConnection")
  | Some _ => Ok false
  | None => Raise (mk_exn (OtherExceptionC "KeyError") "'type'")
  end.

Section Fixture.

(** What [create_or_update(Connection.from_execution_connection_dict(...))]
    does for a name and its data: it returns, or it raises. *)
Variable create_or_update : string -> dict pyval -> option exn.

(** The loop [for name, _dct in connection_dict.items()]: the calls made, and
    whether the loop ran to its end. *)
Fixpoint create_connections (entries : dict (dict pyval)) (calls : list (string * dict pyval))
  : list (string * dict pyval) * result unit :=
  match entries with
  | [] => (calls, Ok tt)
  | (name, dct) :: rest =>
      match is_bing dct with
      | Raise e => (calls, Raise e)
      | Ok true => create_connections rest calls
      | Ok false =>
          match create_or_update name dct with
          | Some e => (calls ++ [(name, dct)], Raise e)
          | None => create_connections rest (calls ++ [(name, dct)])
          end
      end
  end.

(** [setup_local_connection]; [connection_dict] is the parsed content of the
    connections file. *)
Definition setup_local_connection (st : fixture_state) (connection_dict : dict (dict pyval))
  : fixture_state * result unit :=
  if connection_setup st then (st, Ok tt)
  else
    match create_connections connection_dict (created st) with
    | (calls, Ok _) => (mk_fixture_state true calls, Ok tt)
    | (calls, Raise e) => (mk_fixture_state (connection_setup st) calls, Raise e)
    end.

End Fixture.

(** The entries of the connections file that are not Bing connections. *)
Definition not_bing (entry : string * dict pyval) : bool :=
  match is_bing (snd entry) with Ok true => false | _ => true end.

(** ** Predicates used in the statements *)

(** [part] occurs in [whole]. *)
Definition contains_text (part whole : string) : Prop :=
  exists before after : string, whole = (before ++ part ++ after)%string.

(** The character [c] occurs in [s]. *)
Fixpoint occurs (c : ascii) (s : string) : bool :=
  match s with
  | EmptyString => false
  | String d s' => Ascii.eqb c d || occurs c s'
  end.

(** * Properties *)

(** ** Type Resolver *)

Lemma resolve_annotation_union (args : list ty) :
  resolve_annotation (Union args) =
  let rest := List.filter (fun arg => negb (is_NoneType arg)) args in
  if Nat.eqb (List.length rest) 1
  then match rest with t :: _ => Plain t | [] => ListOf rest end
  else ListOf rest.
Proof.
  unfold resolve_annotation; simpl.
  destruct (List.filter _ args) as [|t [|u r]]; reflexivity.
Qed.

Lemma filter_add_NoneType (args : list ty) :
  List.filter (fun arg => negb (is_NoneType arg)) (add_NoneType args) =
  List.filter (fun arg => negb (is_NoneType arg)) args.
Proof.
  unfold add_NoneType. destruct (List.existsb is_NoneType args); [reflexivity|].
  rewrite List.filter_app. cbn. apply app_nil_r.
Qed.

Lemma resolve_annotation_Optional_class (T : ty) :
  exists a, Optional (Plain T) = Some a /\ resolve_annotation a = Plain T.
Proof.
  eexists. split; [reflexivity|].
  destruct (is_NoneType T) eqn:HT.
  - destruct T; try discriminate. reflexivity.
  - unfold resolve_annotation. simpl. now rewrite HT.
Qed.

Lemma resolve_annotation_Optional_union (args : list ty) (a : anno) :
  Optional (Union args) = Some a \/ Optional (UnionType args) = Some a ->
  resolve_annotation a = resolve_annotation (Union args).
Proof.
  intros [H|H]; inversion H; subst;
    unfold resolve_annotation; cbn [origin_is_Union negb get_args];
    now rewrite filter_add_NoneType.
Qed.

(** C4 (amended).  [resolve_annotation] returns an annotation unchanged when
    its origin is not [typing.Union]; that includes a union written [X | Y],
    which keeps its [None] member.  For a [typing.Union] it drops the
    [NoneType] members and returns the single remaining member alone when
    exactly one remains, otherwise the remaining members as a list in their
    order.  Hence [typing.Optional[T]] resolves to [T] for a single type [T],
    [typing.Union[A, B]] with neither member [NoneType] resolves to
    [[A, B]], and [typing.Optional] of a union resolves as the
    [typing.Union] of its members does. *)
Theorem resolve_annotation_spec :
  (forall a, origin_is_Union a = false -> resolve_annotation a = a) /\
  (forall members, resolve_annotation (UnionType members) = UnionType members) /\
  (forall args,
      let rest := List.filter (fun arg => negb (is_NoneType arg)) args in
      (forall t, rest = [t] -> resolve_annotation (Union args) = Plain t) /\
      (List.length rest <> 1 -> resolve_annotation (Union args) = ListOf rest)) /\
  (forall T, exists a, Optional (Plain T) = Some a /\ resolve_annotation a = Plain T) /\
  (forall A B, is_NoneType A = false -> is_NoneType B = false ->
               resolve_annotation (Union [A; B]) = ListOf [A; B]) /\
  (forall args a,
      Optional (Union args) = Some a \/ Optional (UnionType args) = Some a ->
      resolve_annotation a = resolve_annotation (Union args)).
Proof.
  split; [|split; [|split; [|split; [|split]]]].
  - intros a Ha. unfold resolve_annotation. now rewrite Ha.
  - reflexivity.
  - intros args rest. split.
    + intros t Hr. rewrite resolve_annotation_union. simpl. fold rest. now rewrite Hr.
    + intros Hlen. rewrite resolve_annotation_union. simpl. fold rest.
      destruct (Nat.eqb_spec (List.length rest) 1); [contradiction | reflexivity].
  - apply resolve_annotation_Optional_class.
  - intros A B HA HB. unfold resolve_annotation. simpl. now rewrite HA, HB.
  - apply resolve_annotation_Optional_union.
Qed.

Lemma resolve_annotation_spec_witness :
  resolve_annotation (ListOf [TBuiltin Bint]) = ListOf [TBuiltin Bint] /\
  resolve_annotation (Union [TNoneType; TBuiltin Bstr]) = Plain (TBuiltin Bstr) /\
  resolve_annotation (Union [TBuiltin Bint; TNoneType; TBuiltin Bstr]) =
    ListOf [TBuiltin Bint; TBuiltin Bstr] /\
  resolve_annotation (Union [TBuiltin Bint; TBuiltin Bstr]) =
    ListOf [TBuiltin Bint; TBuiltin Bstr] /\
  resolve_annotation (Union [TBuiltin Bint; TBuiltin Bstr; TNoneType]) =
    resolve_annotation (Union [TBuiltin Bint; TBuiltin Bstr]).
Proof.
  destruct resolve_annotation_spec as (H1 & _ & H2 & _ & H4 & H5).
  split; [apply H1; reflexivity|].
  split; [apply (proj1 (H2 [TNoneType; TBuiltin Bstr])); reflexivity|].
  split; [apply (proj2 (H2 [TBuiltin Bint; TNoneType; TBuiltin Bstr])); simpl; lia|].
  split; [apply H4; reflexivity|].
  apply (H5 [TBuiltin Bint; TBuiltin Bstr]). right. reflexivity.
Defined.

(** C4 as stated fails: [int | None], which Python holds equal to
    [Optional[int]], is a union whose origin is not [typing.Union]; it is
    returned as it is, with its [None] member, and not as [int]. *)
Lemma resolve_annotation_pep604_counterexample :
  let a := UnionType [TBuiltin Bint; TNoneType] in
  resolve_annotation a = a /\ resolve_annotation a <> Plain (TBuiltin Bint).
Proof. split; [reflexivity | discriminate]. Qed.

(** ** Parameter Describer *)

Lemma names_after_marker_cons (t : ty) (rest : list ty) :
  names_after_marker (t :: rest) =
  if is_marker t then names_after_marker rest else ty_name t :: names_after_marker rest.
Proof. unfold names_after_marker. simpl. now destruct (is_marker t). Qed.

Lemma conn_step_cases (added : bool) (typ : list type_tag) (custom : list string) (t : ty) :
  conn_step (added, typ, custom) t =
  (added || is_marker t,
   typ ++ (if is_marker t
           then (if added then [] else [TagName "CustomConnection"])
           else [TagName (ty_name t)]),
   custom ++ (if is_custom_strong_type t then [ty_name t] else [])).
Proof.
  unfold conn_step, is_marker.
  destruct (is_custom_strong_type t); cbn [orb].
  - rewrite orb_true_r. destruct added; cbn [negb]; now rewrite ?app_nil_r.
  - destruct (String.eqb_spec (ty_name t) "CustomConnection") as [He|He]; cbn [negb].
    + rewrite orb_true_r. destruct added; cbn [negb]; now rewrite ?app_nil_r, ?He.
    + now rewrite orb_false_r, app_nil_r.
Qed.

Lemma fold_conn_step (candidates : list ty) :
  forall (added : bool) (typ : list type_tag) (custom : list string),
    List.fold_left conn_step candidates (added, typ, custom) =
    (added || List.existsb is_marker candidates,
     typ ++ List.map TagName
              (if added then names_after_marker candidates else tag_names candidates),
     custom ++ List.map ty_name (List.filter is_custom_strong_type candidates)).
Proof.
  induction candidates as [|t rest IH]; intros added typ custom.
  - simpl. rewrite orb_false_r. destruct added; cbn; rewrite !app_nil_r; reflexivity.
  - cbn [List.fold_left]. rewrite conn_step_cases, IH.
    rewrite names_after_marker_cons. cbn [tag_names List.existsb List.filter].
    rewrite <- !app_assoc, orb_assoc.
    destruct (is_marker t) eqn:Hm, (is_custom_strong_type t) eqn:Hc, added;
      cbn [orb List.map app]; reflexivity.
Qed.

Section DescriberProperties.

Variable py_str : pyval -> string.
Variable from_type : anno -> ValueType.

Lemma inferred_value_type_list (param : Param) (candidates : list ty) :
  resolve_annotation (annotation param) = ListOf candidates ->
  inferred_value_type param = ListOf candidates.
Proof.
  intros H. unfold inferred_value_type. rewrite H. simpl.
  now rewrite andb_false_r.
Qed.

Lemma tag_names_not_object (names : list string) :
  List.map TagName names <> [TagValue OBJECT].
Proof. destruct names; discriminate. Qed.

(** What [param_to_definition] gives for a list of candidates. *)
Lemma param_to_definition_list (param : Param) (gen : bool) (candidates : list ty) :
  inferred_value_type param = ListOf candidates ->
  param_to_definition py_str from_type param gen =
  if List.forallb is_connection_type candidates
  then (mk_InputDefinition (List.map TagName (tag_names candidates))
          (value_to_str (param_default param)) None None
          (if gen
           then Some (List.map ty_name (List.filter is_custom_strong_type candidates))
           else None),
        true)
  else (mk_InputDefinition [TagValue OBJECT]
          (value_to_str (param_default param)) None None None,
        false).
Proof.
  intros H. unfold param_to_definition. rewrite H. cbn [is_connection_value].
  destruct (List.forallb is_connection_type candidates); cbn [negb].
  - rewrite fold_conn_step. cbn [app]. now destruct gen.
  - now destruct gen.
Qed.

(** C1 (amended).  For a parameter whose resolved annotation is a list of
    candidate types, the type-tag list is the single generic object tag
    exactly when at least one candidate is not connection-capable; the
    parameter is then not connection-typed and has no custom-type list.
    When every candidate is connection-capable, the tag list holds the
    candidates' names in order, with one "CustomConnection" marker at the
    place of the first candidate that is a custom connection type or the
    class named CustomConnection and nothing for the later such candidates;
    the parameter is connection-typed, and the custom-type list, kept only
    when custom types are requested, holds the names of the custom
    connection types in order. *)
Theorem param_to_definition_candidates
    (param : Param) (gen : bool) (candidates : list ty) :
  resolve_annotation (annotation param) = ListOf candidates ->
  let d := fst (param_to_definition py_str from_type param gen) in
  let is_connection := snd (param_to_definition py_str from_type param gen) in
  (type d = [TagValue OBJECT] <-> List.forallb is_connection_type candidates = false) /\
  (List.forallb is_connection_type candidates = false ->
     is_connection = false /\ custom_type d = None) /\
  (List.forallb is_connection_type candidates = true ->
     type d = List.map TagName (tag_names candidates) /\
     is_connection = true /\
     custom_type d =
       if gen
       then Some (List.map ty_name (List.filter is_custom_strong_type candidates))
       else None).
Proof.
  intros H. apply inferred_value_type_list in H.
  rewrite (param_to_definition_list param gen candidates H).
  destruct (List.forallb is_connection_type candidates); cbn.
  - split; [split; [intros E; now apply tag_names_not_object in E | discriminate]|].
    split; [discriminate | auto].
  - split; [split; auto|]. split; [auto | discriminate].
Qed.

(** C9.  The Input Definition of a parameter never has both an enum list
    and the connection flag: an enum list is present only when the value
    type is an enumeration class, and then it is the stringified member
    values in order, the type tag is the one the fixed mapping gives to
    [str], the generic string type, and the parameter is not
    connection-typed. *)
Theorem param_to_definition_enum_not_connection (param : Param) (gen : bool) :
  from_type (Plain (TBuiltin Bstr)) = STRING ->
  let d := fst (param_to_definition py_str from_type param gen) in
  let is_connection := snd (param_to_definition py_str from_type param gen) in
  (enum d <> None -> is_connection = false) /\
  (enum d <> None ->
     exists n members, inferred_value_type param = Plain (TEnum n members)) /\
  (forall n members,
     inferred_value_type param = Plain (TEnum n members) ->
     enum d = Some (List.map py_str members) /\
     type d = [TagValue STRING] /\
     is_connection = false).
Proof.
  intros Hstr.
  assert (Henum : forall n members,
             inferred_value_type param = Plain (TEnum n members) ->
             param_to_definition py_str from_type param gen =
             (mk_InputDefinition [TagValue STRING] (value_to_str (param_default param))
                None (Some (List.map py_str members)) None, false)).
  { intros n members H. unfold param_to_definition. rewrite H. cbn.
    rewrite Hstr. now destruct gen. }
  assert (Hother : (forall n members, inferred_value_type param <> Plain (TEnum n members)) ->
             enum (fst (param_to_definition py_str from_type param gen)) = None).
  { intros H. unfold param_to_definition.
    destruct (inferred_value_type param) as [t|args|candidates|members] eqn:E.
    - destruct t; try (exfalso; eapply H; reflexivity);
        cbn; repeat (match goal with |- context [if ?b then _ else _] => destruct b end);
        reflexivity.
    - cbn. now destruct gen.
    - cbn. destruct (List.forallb is_connection_type candidates); cbn.
      + rewrite fold_conn_step. now destruct gen.
      + now destruct gen.
    - cbn. now destruct gen. }
  cbn zeta.
  destruct (inferred_value_type param) as [t|args|candidates|members] eqn:E.
  2,3,4: (rewrite Hother by discriminate);
       (split; [congruence|]); (split; [congruence|]); intros; discriminate.
  destruct t as [| |b|ename emembers|c|c|o].
  4: { rewrite (Henum ename emembers eq_refl). cbn.
       split; [auto|]. split; [eauto|].
       intros n m Hnm. inversion Hnm; subst. auto. }
  all: (rewrite Hother by discriminate);
       (split; [congruence|]); (split; [congruence|]); intros; discriminate.
Qed.

End DescriberProperties.

Lemma param_to_definition_candidates_witness :
  let param :=
    mk_Param DEmpty
      (Union [TCustomStrong "MyConnection"; TConnection "CustomConnection";
              TConnection "AzureOpenAIConnection"; TNoneType])
      POSITIONAL_OR_KEYWORD in
  let r := param_to_definition str_of_scalar from_type_by_name param true in
  type (fst r) = [TagName "CustomConnection"; TagName "AzureOpenAIConnection"] /\
  snd r = true /\
  custom_type (fst r) = Some ["MyConnection"].
Proof.
  apply (param_to_definition_candidates str_of_scalar from_type_by_name
           (mk_Param DEmpty
              (Union [TCustomStrong "MyConnection"; TConnection "CustomConnection";
                      TConnection "AzureOpenAIConnection"; TNoneType])
              POSITIONAL_OR_KEYWORD)
           true
           [TCustomStrong "MyConnection"; TConnection "CustomConnection";
            TConnection "AzureOpenAIConnection"]);
    reflexivity.
Defined.

(** C1 as stated fails: for [Union[AzureOpenAIConnection, str]] the tag list
    collapses to the object tag although one candidate is
    connection-capable. *)
Lemma param_to_definition_mixed_union_counterexample :
  let candidates := [TConnection "AzureOpenAIConnection"; TBuiltin Bstr] in
  let param := mk_Param DEmpty (Union candidates) POSITIONAL_OR_KEYWORD in
  let r := param_to_definition str_of_scalar from_type_by_name param false in
  resolve_annotation (annotation param) = ListOf candidates /\
  ~ (type (fst r) = [TagValue OBJECT] <->
     List.existsb is_connection_type candidates = false) /\
  ~ (List.existsb is_connection_type candidates = true -> snd r = true).
Proof.
  cbn. split; [reflexivity|]. split.
  - intros [H _]. specialize (H eq_refl). discriminate.
  - intros H. specialize (H eq_refl). discriminate.
Qed.

Lemma param_to_definition_enum_not_connection_witness :
  let color := TEnum "Color" [PStr "red"; PInt 2] in
  let param := mk_Param (DEnumMember color (PStr "red")) (Plain TEmpty) KEYWORD_ONLY in
  let r := param_to_definition str_of_scalar from_type_by_name param false in
  enum (fst r) = Some ["red"; "2"] /\ type (fst r) = [TagValue STRING] /\ snd r = false.
Proof.
  apply (proj2 (proj2
    (param_to_definition_enum_not_connection str_of_scalar from_type_by_name
       (mk_Param (DEnumMember (TEnum "Color" [PStr "red"; PInt 2]) (PStr "red"))
          (Plain TEmpty) KEYWORD_ONLY)
       false eq_refl)) "Color" [PStr "red"; PInt 2] eq_refl).
Defined.

(** ** Parameter Augmenter *)

Section AugmenterProperties.

Context {V : Type}.

Lemma has_kwargs_param_spec (func_sig_params : gmap string Param) :
  has_kwargs_param func_sig_params = true <->
  exists k p, func_sig_params !! k = Some p /\ kind p = VAR_KEYWORD.
Proof.
  unfold has_kwargs_param. rewrite List.existsb_exists. split.
  - intros [[k p] [Hin Hk]]. exists k, p. split.
    + apply elem_of_map_to_list. now apply list_elem_of_In.
    + unfold is_var_keyword in Hk. simpl in Hk. now destruct (kind p).
  - intros (k & p & Hl & Hk). exists (k, p). split.
    + apply list_elem_of_In. now apply elem_of_map_to_list.
    + unfold is_var_keyword. simpl. now rewrite Hk.
Qed.

Lemma lookup_layered (user base : gmap string V) (k : string) :
  (user ∪ base) !! k = match user !! k with Some v => Some v | None => base !! k end.
Proof.
  rewrite lookup_union. destruct (user !! k), (base !! k); reflexivity.
Qed.

Lemma lookup_restricted (func_sig_params : gmap string Param) (ws : gmap string V)
    (k : string) :
  filter (fun kv => fst kv ∈ dom func_sig_params) ws !! k =
  if bool_decide (k ∈ dom func_sig_params) then ws !! k else None.
Proof.
  rewrite map_lookup_filter. destruct (ws !! k) as [v|]; simpl.
  - case_bool_decide; now simplify_option_eq.
  - now case_bool_decide.
Qed.

(** C7.  When the function declares a catch-all keyword parameter the whole
    workspace triple is the base; otherwise the base is the triple restricted
    to the keys that are declared parameter names.  The returned mapping is
    the base with the user-supplied values layered on top, so a key the user
    supplied keeps the user's value. *)
Theorem append_workspace_triple_spec
    (func_sig_params : gmap string Param)
    (func_input_params_dict ws_triple_dict : option (gmap string V)) :
  let user := or_empty func_input_params_dict in
  let triple := or_empty ws_triple_dict in
  let combined :=
    append_workspace_triple_to_func_input_params
      func_sig_params func_input_params_dict ws_triple_dict in
  ((exists k p, func_sig_params !! k = Some p /\ kind p = VAR_KEYWORD) ->
   combined = user ∪ triple) /\
  (~ (exists k p, func_sig_params !! k = Some p /\ kind p = VAR_KEYWORD) ->
   combined = user ∪ filter (fun kv => fst kv ∈ dom func_sig_params) triple /\
   forall k,
     combined !! k =
     match user !! k with
     | Some v => Some v
     | None => if bool_decide (is_Some (func_sig_params !! k)) then triple !! k else None
     end) /\
  (forall k v, user !! k = Some v -> combined !! k = Some v) /\
  (forall k, user !! k = None -> combined !! k = None \/ combined !! k = triple !! k).
Proof.
  cbn zeta. unfold append_workspace_triple_to_func_input_params.
  fold (or_empty func_input_params_dict) (or_empty ws_triple_dict).
  set (user := or_empty func_input_params_dict).
  set (triple := or_empty ws_triple_dict).
  pose proof (has_kwargs_param_spec func_sig_params) as Hk.
  destruct (has_kwargs_param func_sig_params); cbn [negb].
  - split; [reflexivity|]. split.
    + intros Hn. exfalso. apply Hn, Hk. reflexivity.
    + split.
      * intros k v Hu. now rewrite lookup_layered, Hu.
      * intros k Hu. right. now rewrite lookup_layered, Hu.
  - split.
    + intros He. apply Hk in He. discriminate.
    + split.
      * intros _. split; [reflexivity|]. intros k.
        rewrite lookup_layered, lookup_restricted.
        destruct (user !! k); [reflexivity|].
        rewrite (bool_decide_ext _ _ (elem_of_dom func_sig_params k)). reflexivity.
      * split.
        -- intros k v Hu. now rewrite lookup_layered, Hu.
        -- intros k Hu. rewrite lookup_layered, Hu, lookup_restricted.
           case_bool_decide; auto.
Qed.

End AugmenterProperties.

Lemma append_workspace_triple_spec_witness :
  let keyword := mk_Param DEmpty (Plain TEmpty) POSITIONAL_OR_KEYWORD in
  let kwargs := mk_Param DEmpty (Plain TEmpty) VAR_KEYWORD in
  let triple : gmap string string :=
    {[ "subscription_id" := "sub"; "resource_group_name" := "rg"; "workspace_name" := "ws" ]} in
  let user : gmap string string := {[ "subscription_id" := "mine" ]} in
  append_workspace_triple_to_func_input_params
    {[ "kwargs" := kwargs ]} (Some user) (Some triple) = user ∪ triple /\
  append_workspace_triple_to_func_input_params
    {[ "workspace_name" := keyword ]} None (Some triple) !! "workspace_name" = Some "ws" /\
  append_workspace_triple_to_func_input_params
    {[ "subscription_id" := keyword ]} (Some user) (Some triple) !! "subscription_id"
    = Some "mine".
Proof.
  cbn zeta.
  set (triple := ({[ "subscription_id" := "sub"; "resource_group_name" := "rg";
                     "workspace_name" := "ws" ]} : gmap string string)).
  set (user := ({[ "subscription_id" := "mine" ]} : gmap string string)).
  split; [|split].
  - apply (proj1 (append_workspace_triple_spec
                    {[ "kwargs" := mk_Param DEmpty (Plain TEmpty) VAR_KEYWORD ]}
                    (Some user) (Some triple))).
    exists "kwargs", (mk_Param DEmpty (Plain TEmpty) VAR_KEYWORD).
    split; reflexivity.
  - rewrite (proj2 (proj1 (proj2 (append_workspace_triple_spec
               {[ "workspace_name" := mk_Param DEmpty (Plain TEmpty) POSITIONAL_OR_KEYWORD ]}
               None (Some triple)))
             ltac:(intros H; apply has_kwargs_param_spec in H; vm_compute in H;
                   discriminate))).
    reflexivity.
  - apply (proj1 (proj2 (proj2 (append_workspace_triple_spec
               {[ "subscription_id" := mk_Param DEmpty (Plain TEmpty) POSITIONAL_OR_KEYWORD ]}
               (Some user) (Some triple))))).
    reflexivity.
Defined.

(** ** Function Path Loader *)

Lemma append_cons (x : ascii) (a b : string) :
  (String x a ++ b)%string = String x (a ++ b)%string.
Proof. reflexivity. Qed.

Lemma append_assoc (a b c : string) : ((a ++ b) ++ c = a ++ (b ++ c))%string.
Proof.
  induction a as [|x a IH]; [reflexivity|]. now rewrite !append_cons, IH.
Qed.

Lemma append_empty_r (a : string) : (a ++ "")%string = a.
Proof.
  induction a as [|x a IH]; [reflexivity|]. now rewrite append_cons, IH.
Qed.

Lemma contains_text_refl (s : string) : contains_text s s.
Proof. exists "", "". simpl. now rewrite append_empty_r. Qed.

Lemma contains_text_app_l (x p s : string) :
  contains_text x s -> contains_text x (p ++ s)%string.
Proof.
  intros (b & a & ->). exists (p ++ b)%string, a. now rewrite append_assoc.
Qed.

Lemma contains_text_app_r (x s q : string) :
  contains_text x s -> contains_text x (s ++ q)%string.
Proof.
  intros (b & a & ->). exists b, (a ++ q)%string. now rewrite !append_assoc.
Qed.

Create HintDb text.
#[local] Hint Resolve contains_text_refl contains_text_app_l contains_text_app_r : text.

Lemma contains_text_DynamicListError (x message : string) :
  contains_text x message -> contains_text x (DynamicListError_msg message).
Proof. intros H. unfold DynamicListError_msg. auto with text. Qed.

(** [rsplit_dot] splits at the last dot, and fails exactly when there is no
    dot. *)
Lemma rsplit_dot_None (s : string) :
  rsplit_dot s = None <-> occurs "." s = false.
Proof.
  induction s as [|c r IH]; cbn [rsplit_dot occurs]; [tauto|].
  rewrite (Ascii.eqb_sym "." c).
  destruct (rsplit_dot r) as [[a b]|].
  - split; [discriminate|]. intros H.
    destruct (Ascii.eqb c "."); [discriminate|]. cbn [orb] in H.
    apply IH in H. discriminate.
  - destruct (Ascii.eqb c "."); cbn [orb]; [split; discriminate | exact IH].
Qed.

Lemma rsplit_dot_Some (s a b : string) :
  rsplit_dot s = Some (a, b) -> s = (a ++ "." ++ b)%string /\ occurs "." b = false.
Proof.
  revert a b. induction s as [|c r IH]; cbn [rsplit_dot]; intros a b H; [discriminate|].
  destruct (rsplit_dot r) as [[a' b']|] eqn:E.
  - inversion H; subst. destruct (IH a' b eq_refl) as [-> Hb]. now split.
  - destruct (Ascii.eqb_spec c "."); [|discriminate].
    inversion H; subst. split; [reflexivity|]. now apply rsplit_dot_None.
Qed.

Section LoaderProperties.

Variables pymodule pyobject : Type.
Variable import_module : string -> result pymodule.
Variable getattr : pymodule -> string -> result pyobject.
Variable callable : pyobject -> bool.
Variable object_str : pyobject -> string.

Abbreviation load :=
  (load_function_from_function_path pymodule pyobject import_module getattr callable
     object_str).
Abbreviation body :=
  (load_function_body pymodule pyobject import_module getattr callable object_str).
Abbreviation load_failure :=
  (load_failure pymodule pyobject import_module getattr callable object_str).
Abbreviation resolves_to :=
  (resolves_to pymodule pyobject import_module getattr callable).

Lemma load_function_body_cases (func_path : string) :
  match body func_path with
  | Ok f => resolves_to func_path f
  | Raise e => load_failure func_path e
  end.
Proof.
  unfold load_function_body.
  destruct (rsplit_dot func_path) as [[module_name func_name]|] eqn:Hs.
  - destruct (import_module module_name) as [module|e] eqn:Hi; cbn [bind].
    + destruct (getattr module func_name) as [f|e] eqn:Hg; cbn [bind].
      * destruct (callable f) eqn:Hc.
        -- exists module_name, func_name, module. auto.
        -- eapply not_callable; eauto.
      * eapply lookup_fails; eauto.
    + eapply import_fails; eauto.
  - now apply split_fails.
Qed.

Lemma load_failure_not_resolved (func_path : string) (e : exn) (f : pyobject) :
  load_failure func_path e -> resolves_to func_path f -> False.
Proof.
  intros Hf (mn & fn & m & Hs & Hi & Hg & Hc).
  destruct Hf as [Hs' _ | mn' fn' Hs' Hi' | mn' fn' m' Hs' Hi' Hg'
                 | mn' fn' m' f' Hs' Hi' Hg' Hc' _];
    rewrite Hs in Hs'; try discriminate; inversion Hs'; subst;
    rewrite Hi in Hi'; try discriminate; inversion Hi'; subst;
    rewrite Hg in Hg'; try discriminate; inversion Hg'; subst.
  rewrite Hc in Hc'. discriminate.
Qed.

(** C6.  [load_function_from_function_path] either returns the callable the
    path resolves to, or raises a function-path validation error; it raises
    whenever the split on the last dot, the import or the attribute lookup
    fails or the attribute is not callable, and the message then contains the
    path, the expected-format hint and the text of the underlying error. *)
Theorem load_function_from_function_path_spec (func_path : string) :
  match load func_path with
  | Ok f => resolves_to func_path f
  | Raise err =>
      exn_cls err = FunctionPathValidationErrorC /\
      exists e, load_failure func_path e /\
                contains_text func_path (exn_str err) /\
                contains_text format_hint (exn_str err) /\
                contains_text (exn_str e) (exn_str err)
  end /\
  (forall e, load_failure func_path e ->
     exists err, load func_path = Raise err /\
                 exn_cls err = FunctionPathValidationErrorC).
Proof.
  pose proof (load_function_body_cases func_path) as Hb.
  unfold load_function_from_function_path.
  destruct (body func_path) as [f|e] eqn:E.
  - split; [exact Hb|]. intros e He. exfalso.
    eapply load_failure_not_resolved; eauto.
  - split.
    + split; [reflexivity|]. exists e. split; [exact Hb|].
      cbn [exn_str FunctionPathValidationError].
      repeat split; apply contains_text_DynamicListError; auto 10 with text.
    + intros _ _. eexists. split; reflexivity.
Qed.

End LoaderProperties.

Lemma load_function_from_function_path_spec_witness :
  exists err,
    load_function_from_function_path string string
      sample_import sample_getattr sample_callable id "os.nonexistent_fn" = Raise err /\
    exn_cls err = FunctionPathValidationErrorC.
Proof.
  apply (proj2 (load_function_from_function_path_spec string string
                  sample_import sample_getattr sample_callable id "os.nonexistent_fn")
           (mk_exn (OtherExceptionC "AttributeError")
              "module 'os' has no attribute 'nonexistent_fn'")).
  eapply lookup_fails; reflexivity.
Defined.

(** ** Dynamic List Response Validator *)

Lemma instance_of_allowed_isinstance (v : pyval) :
  List.existsb (isinstance v) [Bstr; Bint; Bfloat; Blist; Bdict] = instance_of_allowed v.
Proof. destruct v; reflexivity. Qed.

Section ValidatorProperties.

Variable py_str : pyval -> string.
Variable is_json_serializable : pyval -> bool.

Abbreviation validate := (validate_dynamic_list_func_response_type py_str is_json_serializable).
Abbreviation conforms := (response_conforms is_json_serializable instance_of_allowed).

Lemma check_entry_cases (f : string) (kv : pyval * pyval) :
  if entry_conforms is_json_serializable instance_of_allowed kv
  then check_entry py_str is_json_serializable f kv = Ok tt
  else is_response_error (check_entry py_str is_json_serializable f kv).
Proof.
  destruct kv as [key value]. unfold entry_conforms, check_entry. cbn [fst snd].
  rewrite instance_of_allowed_isinstance.
  destruct key; try reflexivity. cbn [isinstance class_of issubclass builtin_eqb orb negb].
  destruct (is_json_serializable value); cbn [negb andb]; [|reflexivity].
  destruct (instance_of_allowed value); reflexivity.
Qed.

Lemma check_entries_cases (f : string) (entries : list (pyval * pyval)) :
  if List.forallb (entry_conforms is_json_serializable instance_of_allowed) entries
  then check_entries py_str is_json_serializable f entries = Ok tt
  else is_response_error (check_entries py_str is_json_serializable f entries).
Proof.
  induction entries as [|kv rest IH]; [reflexivity|].
  cbn [List.forallb check_entries].
  pose proof (check_entry_cases f kv) as Hkv.
  destruct (entry_conforms is_json_serializable instance_of_allowed kv); cbn [andb].
  - rewrite Hkv. exact IH.
  - destruct (check_entry py_str is_json_serializable f kv); [contradiction | exact Hkv].
Qed.

Lemma check_item_cases (f : string) (item : pyval) :
  if item_conforms is_json_serializable instance_of_allowed item
  then check_item py_str is_json_serializable f item = Ok tt
  else is_response_error (check_item py_str is_json_serializable f item).
Proof.
  destruct item; try reflexivity. cbn [item_conforms check_item].
  destruct (has_value_key entries); cbn [negb andb]; [|reflexivity].
  apply check_entries_cases.
Qed.

Lemma check_items_cases (f : string) (items : list pyval) :
  if List.forallb (item_conforms is_json_serializable instance_of_allowed) items
  then check_items py_str is_json_serializable f items = Ok tt
  else is_response_error (check_items py_str is_json_serializable f items).
Proof.
  induction items as [|item rest IH]; [reflexivity|].
  cbn [List.forallb check_items].
  pose proof (check_item_cases f item) as Hi.
  destruct (item_conforms is_json_serializable instance_of_allowed item); cbn [andb].
  - rewrite Hi. exact IH.
  - destruct (check_item py_str is_json_serializable f item); [contradiction | exact Hi].
Qed.

Lemma validate_cases (response : pyval) (f : string) :
  if conforms response then validate response f = Ok tt
  else is_response_error (validate response f).
Proof.
  unfold validate_dynamic_list_func_response_type.
  destruct response as [|b|z|bits|s|items|items|entries|cls];
    try (cbn [response_conforms]; destruct (truthy _); reflexivity).
  destruct items as [|item rest]; [reflexivity|].
  cbn [truthy negb response_conforms]. apply check_items_cases.
Qed.

(** C3 (amended).  The validator returns without raising exactly when the
    response is a non-empty list whose elements are all dicts that have a
    "value" key, only string keys, only JSON-serializable values and only
    values that are instances of string, integer (booleans included), float,
    list or dict; in every other case it raises the response-shape error.
    The response [[{"value": 1}]] is accepted. *)
Theorem validate_dynamic_list_func_response_type_spec (response : pyval) (f : string) :
  (validate response f = Ok tt <-> conforms response = true) /\
  (is_response_error (validate response f) <-> conforms response = false) /\
  (is_json_serializable (PInt 1) = true ->
   validate (PList [PDict [(PStr "value", PInt 1)]]) f = Ok tt).
Proof.
  pose proof (validate_cases response f) as H.
  split; [|split].
  - destruct (conforms response); [tauto|].
    split; [|discriminate]. intros E. rewrite E in H. contradiction.
  - destruct (conforms response); [|tauto].
    split; [|discriminate]. intros E. rewrite H in E. contradiction.
  - intros Hj.
    pose proof (validate_cases (PList [PDict [(PStr "value", PInt 1)]]) f) as H1.
    assert (Hc : conforms (PList [PDict [(PStr "value", PInt 1)]]) = true)
      by (cbn; now rewrite Hj).
    now rewrite Hc in H1.
Qed.

(** C10.  A boolean under the "value" key does not make the validator raise:
    a boolean is an instance of the integer class although its type is none
    of the five documented ones, so its entry passes every check, and
    [[{"value": true}]] and any response whose values are otherwise allowed
    validate. *)
Theorem validate_accepts_boolean_value (b : bool) (f : string) :
  is_json_serializable (PBool b) = true ->
  type_in_allowed_set (PBool b) = false /\
  isinstance (PBool b) Bint = true /\
  check_entry py_str is_json_serializable f (PStr "value", PBool b) = Ok tt /\
  validate (PList [PDict [(PStr "value", PBool b)]]) f = Ok tt /\
  (forall items,
     response_conforms is_json_serializable
       (fun v => type_in_allowed_set v || is_boolean v) (PList items) = true ->
     validate (PList items) f = Ok tt).
Proof.
  intros Hj. split; [reflexivity|]. split; [reflexivity|]. split; [|split].
  - pose proof (check_entry_cases f (PStr "value", PBool b)) as H.
    unfold entry_conforms in H. cbn [fst snd] in H. rewrite Hj in H. exact H.
  - pose proof (validate_cases (PList [PDict [(PStr "value", PBool b)]]) f) as H.
    assert (Hc : conforms (PList [PDict [(PStr "value", PBool b)]]) = true)
      by (cbn; now rewrite Hj).
    now rewrite Hc in H.
  - intros items Hc. pose proof (validate_cases (PList items) f) as H.
    change (fun v => type_in_allowed_set v || is_boolean v) with instance_of_allowed in Hc.
    rewrite Hc in H. exact H.
Qed.

End ValidatorProperties.

Lemma validate_dynamic_list_func_response_type_spec_witness :
  validate_dynamic_list_func_response_type str_of_scalar json_serializable
    (PList [PDict [(PStr "value", PInt 1)]]) "f" = Ok tt /\
  is_response_error
    (validate_dynamic_list_func_response_type str_of_scalar json_serializable
       (PList [PDict [(PStr "display_value", PStr "x")]]) "f").
Proof.
  split.
  - apply (proj2 (proj2 (validate_dynamic_list_func_response_type_spec
                           str_of_scalar json_serializable (PList []) "f"))).
    reflexivity.
  - apply (proj1 (proj2 (validate_dynamic_list_func_response_type_spec
                           str_of_scalar json_serializable
                           (PList [PDict [(PStr "display_value", PStr "x")]]) "f"))).
    reflexivity.
Defined.

(** C3 as stated fails: the type of [True] is none of string, integer,
    floating-point, list and mapping, yet [[{"value": True}]] is accepted. *)
Lemma validate_boolean_counterexample :
  let response := PList [PDict [(PStr "value", PBool true)]] in
  response_conforms json_serializable type_in_allowed_set response = false /\
  validate_dynamic_list_func_response_type str_of_scalar json_serializable response "f"
  = Ok tt.
Proof. split; reflexivity. Qed.

Lemma validate_accepts_boolean_value_witness :
  validate_dynamic_list_func_response_type str_of_scalar json_serializable
    (PList [PDict [(PStr "value", PBool true)]]) "f" = Ok tt.
Proof.
  apply (proj1 (proj2 (proj2 (proj2
           (validate_accepts_boolean_value str_of_scalar json_serializable true "f"
              eq_refl))))).
Defined.

(** ** Template Variable Extractor *)

(** *** Strings *)

Lemma append_nil_l (s : string) : ("" ++ s)%string = s.
Proof. reflexivity. Qed.

Lemma span_is_space_all_space (s : string) : all_space (fst (span is_space s)) = true.
Proof.
  induction s as [|c s IH]; [reflexivity|]. cbn [span].
  destruct (is_space c) eqn:E; [|reflexivity].
  destruct (span is_space s) as [a b]. cbn [fst all_space] in *. now rewrite E, IH.
Qed.

Lemma lstrip_all_space (ws t : string) :
  all_space ws = true -> lstrip (ws ++ t) = lstrip t.
Proof.
  induction ws as [|c ws IH]; [reflexivity|]. cbn [all_space].
  intros H. apply andb_prop in H as [Hc Hws].
  rewrite append_cons. cbn [lstrip]. rewrite Hc. auto.
Qed.

Lemma rstrip_all_space (ws : string) : all_space ws = true -> rstrip ws = "".
Proof.
  induction ws as [|c ws IH]; [reflexivity|]. cbn [all_space].
  intros H. apply andb_prop in H as [Hc Hws].
  cbn [rstrip]. now rewrite (IH Hws), Hc.
Qed.

Lemma rstrip_app_all_space (t ws : string) :
  all_space ws = true -> rstrip (t ++ ws) = rstrip t.
Proof.
  intros H. induction t as [|c t IH].
  - rewrite append_nil_l. now apply rstrip_all_space.
  - rewrite append_cons. cbn [rstrip]. now rewrite IH.
Qed.

Lemma strip_image_group (ws1 ws2 : string) :
  all_space ws1 = true -> all_space ws2 = true ->
  strip (ws1 ++ "image" ++ ws2) = "image".
Proof.
  intros H1 H2. unfold strip. rewrite (lstrip_all_space _ _ H1).
  rewrite !append_cons, append_nil_l.
  change (lstrip (String "i" (String "m" (String "a" (String "g" (String "e" ws2))))))
    with ("image" ++ ws2)%string.
  now rewrite (rstrip_app_all_space _ _ H2).
Qed.

(** Group 1 of a match is the word image between white space. *)
Lemma match_image_at_group1 (s : string) (m : image_match) :
  match_image_at s = Some m -> strip (group1 m) = "image".
Proof.
  unfold match_image_at.
  destruct (expect "![" s) as [s1|]; [|discriminate].
  pose proof (span_is_space_all_space s1) as H1.
  destruct (span is_space s1) as [ws1 s2].
  destruct (expect "image" s2) as [s3|]; [|discriminate].
  pose proof (span_is_space_all_space s3) as H2.
  destruct (span is_space s3) as [ws2 s4].
  destruct (expect "]({{" s4) as [s5|]; [|discriminate].
  destruct (span not_brace s5) as [run s6].
  destruct (negb (nonempty run)); [discriminate|].
  destruct (expect "}})" s6) as [s7|]; [|discriminate].
  intros E. inversion E; subst. cbn [group1 fst] in *.
  now apply strip_image_group.
Qed.

Lemma finditer_aux_match (s : string) :
  forall skip m, In m (finditer_aux skip s) -> exists s', match_image_at s' = Some m.
Proof.
  induction s as [|c s IH]; intros skip m; cbn [finditer_aux]; [contradiction|].
  destruct skip as [|k]; [|apply IH].
  destruct (match_image_at (String c s)) as [m'|] eqn:E; [|apply IH].
  intros [<-|H]; [eauto | now apply IH in H].
Qed.

Lemma finditer_group1 (template_str : string) (m : image_match) :
  In m (finditer template_str) -> ValueType_of_value (strip (group1 m)) = Ok IMAGE.
Proof.
  intros H. apply finditer_aux_match in H as [s' H].
  now rewrite (match_image_at_group1 _ _ H).
Qed.

(** *** Ordered dictionaries *)

Section DictLemmas.

Context {V : Type}.
Implicit Types (d : dict V) (k : string) (v : V).

Lemma dict_contains_In d k : dict_contains d k = List.existsb (String.eqb k) (dict_keys d).
Proof.
  unfold dict_contains. induction d as [|[k' v'] d IH]; [reflexivity|].
  cbn [dict_get dict_keys List.map List.existsb fst]. rewrite (String.eqb_sym k k').
  destruct (String.eqb k' k); [reflexivity | exact IH].
Qed.

Lemma dict_keys_set d k v :
  dict_keys (dict_set d k v) =
  if List.existsb (String.eqb k) (dict_keys d) then dict_keys d else dict_keys d ++ [k].
Proof.
  induction d as [|[k' v'] d IH]; [reflexivity|].
  cbn [dict_set dict_keys List.map List.existsb fst]. rewrite (String.eqb_sym k k').
  destruct (String.eqb k' k); cbn [orb List.map fst]; [reflexivity|].
  fold (dict_keys (dict_set d k v)) (dict_keys d). rewrite IH.
  now destruct (List.existsb (String.eqb k) (dict_keys d)).
Qed.

Lemma dict_get_set d k v k' :
  dict_get (dict_set d k v) k' = if String.eqb k k' then Some v else dict_get d k'.
Proof.
  induction d as [|[k0 v0] d IH]; [reflexivity|].
  cbn [dict_set dict_get].
  destruct (String.eqb_spec k0 k) as [->|Hne]; cbn [dict_get].
  - destruct (String.eqb k k'); reflexivity.
  - rewrite IH. destruct (String.eqb_spec k0 k') as [->|Hne'].
    + now rewrite (proj2 (String.eqb_neq k k')) by congruence.
    + reflexivity.
Qed.

(** Assigning the same value to each of [names] in turn. *)
Lemma dict_keys_assign (names : list string) v :
  forall d,
    dict_keys (List.fold_left (fun acc n => dict_set acc n v) names d) =
    dict_keys d ++ new_keys (dict_keys d) names.
Proof.
  induction names as [|n rest IH]; intros d; cbn [List.fold_left new_keys].
  - now rewrite app_nil_r.
  - rewrite IH, dict_keys_set.
    destruct (List.existsb (String.eqb n) (dict_keys d)); [reflexivity|].
    now rewrite <- app_assoc.
Qed.

Lemma dict_get_assign (names : list string) v k :
  forall d,
    dict_get (List.fold_left (fun acc n => dict_set acc n v) names d) k =
    if List.existsb (String.eqb k) names then Some v else dict_get d k.
Proof.
  induction names as [|n rest IH]; intros d; cbn [List.fold_left List.existsb];
    [reflexivity|].
  rewrite IH, dict_get_set, (String.eqb_sym k n).
  destruct (List.existsb (String.eqb k) rest), (String.eqb n k); reflexivity.
Qed.

End DictLemmas.

Lemma existsb_eqb_In (k : string) (l : list string) :
  List.existsb (String.eqb k) l = true <-> In k l.
Proof.
  rewrite List.existsb_exists. split.
  - intros (x & Hx & E). apply String.eqb_eq in E. now subst.
  - intros H. exists k. split; [exact H | apply String.eqb_refl].
Qed.

Lemma new_keys_fresh (names : list string) :
  forall known,
    List.NoDup names -> (forall n, In n names -> ~ In n known) ->
    new_keys known names = names.
Proof.
  induction names as [|n rest IH]; intros known Hnd Hfresh; [reflexivity|].
  cbn [new_keys]. inversion Hnd as [|? ? Hn Hrest]; subst.
  destruct (List.existsb (String.eqb n) known) eqn:E.
  - apply existsb_eqb_In in E. exfalso. eapply Hfresh; [left; reflexivity | exact E].
  - f_equal. apply IH; [exact Hrest|].
    intros x Hx Hin. apply List.in_app_or in Hin as [Hin|[<-|[]]].
    + eapply Hfresh; [right; exact Hx | exact Hin].
    + contradiction.
Qed.

Lemma new_keys_known (names : list string) :
  forall known, (forall n, In n names -> In n known) -> new_keys known names = [].
Proof.
  induction names as [|n rest IH]; intros known H; [reflexivity|].
  cbn [new_keys]. rewrite (proj2 (existsb_eqb_In n known)) by (apply H; now left).
  apply IH. intros x Hx. apply H. now right.
Qed.

Lemma new_keys_spec (names : list string) :
  forall known n, In n (new_keys known names) -> In n names /\ ~ In n known.
Proof.
  induction names as [|x rest IH]; intros known n; cbn [new_keys]; [contradiction|].
  destruct (List.existsb (String.eqb x) known) eqn:E.
  - intros H. apply IH in H as [H1 H2]. split; [now right | exact H2].
  - intros [<-|H].
    + split; [now left|]. intros Hin. apply existsb_eqb_In in Hin. congruence.
    + apply IH in H as [H1 H2]. split; [now right|].
      intros Hin. apply H2. apply List.in_or_app. now left.
Qed.

(** *** Sorting by first occurrence *)

Section SortLemmas.

Variable key : string -> Z.

Abbreviation le_key := (key_le key).

Lemma insert_by_key_perm (x : string) (l : list string) :
  Permutation (insert_by_key key x l) (x :: l).
Proof.
  induction l as [|y r IH]; cbn [insert_by_key]; [reflexivity|].
  destruct (key x <=? key y)%Z; [reflexivity|].
  rewrite IH. apply perm_swap.
Qed.

Lemma sorted_by_key_perm (l : list string) : Permutation (sorted_by_key key l) l.
Proof.
  induction l as [|x r IH]; [reflexivity|].
  unfold sorted_by_key in *. cbn [List.fold_right].
  rewrite insert_by_key_perm. now apply perm_skip.
Qed.

Lemma insert_by_key_sorted (x : string) (l : list string) :
  StronglySorted le_key l -> StronglySorted le_key (insert_by_key key x l).
Proof.
  induction l as [|y r IH]; intros Hs; cbn [insert_by_key].
  - constructor; [constructor | constructor].
  - inversion Hs as [|? ? Hr Hy]; subst.
    destruct (Z.leb_spec (key x) (key y)) as [Hle|Hgt].
    + constructor; [exact Hs|]. constructor; [exact Hle|].
      eapply List.Forall_impl; [|exact Hy]. unfold key_le. intros z Hz. lia.
    + constructor; [now apply IH|].
      eapply Permutation_Forall; [symmetry; apply insert_by_key_perm|].
      constructor; [unfold key_le; lia | exact Hy].
Qed.

Lemma sorted_by_key_sorted (l : list string) : StronglySorted le_key (sorted_by_key key l).
Proof.
  induction l as [|x r IH]; [constructor|].
  unfold sorted_by_key in *. cbn [List.fold_right]. now apply insert_by_key_sorted.
Qed.

End SortLemmas.

(** *** The returned mapping *)

Lemma apply_matches_image (matches : list image_match) :
  (forall m, In m matches -> ValueType_of_value (strip (group1 m)) = Ok IMAGE) ->
  forall d,
    apply_matches matches d =
    Ok (List.fold_left (fun acc n => dict_set acc n image_definition)
          (List.map (fun m => strip (group2 m)) matches) d).
Proof.
  induction matches as [|m rest IH]; intros H d; [reflexivity|].
  cbn [apply_matches List.map List.fold_left].
  rewrite (H m) by now left. cbn [bind].
  apply IH. intros m' Hm'. apply H. now right.
Qed.

Lemma get_inputs_for_prompt_template_result (undeclared : list string) (template_str : string) :
  get_inputs_for_prompt_template undeclared template_str =
  Ok (List.fold_left (fun acc n => dict_set acc n image_definition)
        (image_names template_str)
        (List.fold_left (fun acc n => dict_set acc n string_definition)
           (sorted_by_key (str_find template_str) undeclared) [])).
Proof.
  unfold get_inputs_for_prompt_template.
  rewrite apply_matches_image by apply finditer_group1. reflexivity.
Qed.

Lemma initial_keys (vars : list string) :
  List.NoDup vars ->
  dict_keys (List.fold_left (fun acc n => dict_set acc n string_definition) vars []) = vars.
Proof.
  intros H. rewrite dict_keys_assign. cbn [dict_keys List.map app].
  apply new_keys_fresh; [exact H | auto].
Qed.

Lemma sorted_by_key_NoDup (key : string -> Z) (l : list string) :
  List.NoDup l -> List.NoDup (sorted_by_key key l).
Proof.
  intros H. eapply Permutation_NoDup; [symmetry; apply sorted_by_key_perm | exact H].
Qed.

Lemma get_inputs_for_prompt_template_dict_keys (undeclared : list string) (template_str : string) :
  List.NoDup undeclared ->
  exists d,
    get_inputs_for_prompt_template undeclared template_str = Ok d /\
    dict_keys d =
      sorted_by_key (str_find template_str) undeclared ++
      new_keys (sorted_by_key (str_find template_str) undeclared) (image_names template_str) /\
    forall k,
      dict_get d k =
      if List.existsb (String.eqb k) (image_names template_str) then Some image_definition
      else if List.existsb (String.eqb k) undeclared then Some string_definition
      else None.
Proof.
  intros Hnd. eexists. split; [apply get_inputs_for_prompt_template_result|]. split.
  - rewrite dict_keys_assign, initial_keys by now apply sorted_by_key_NoDup. reflexivity.
  - intros k. rewrite !dict_get_assign. cbn [dict_get].
    destruct (List.existsb (String.eqb k) (image_names template_str)); [reflexivity|].
    destruct (List.existsb (String.eqb k) undeclared) eqn:E.
    + apply existsb_eqb_In in E.
      rewrite (proj2 (existsb_eqb_In k _)); [reflexivity|].
      eapply Permutation_in; [symmetry; apply sorted_by_key_perm | exact E].
    + destruct (List.existsb (String.eqb k) (sorted_by_key _ undeclared)) eqn:E';
        [|reflexivity].
      apply existsb_eqb_In in E'.
      eapply Permutation_in in E'; [|apply sorted_by_key_perm].
      apply existsb_eqb_In in E'. congruence.
Qed.

(** C2 (amended).  The keys of the returned mapping are the template's free
    variable names, in non-decreasing order of the position at which each
    name first occurs as text in the raw template, followed by the names that
    image matches capture and that are not free variable names, in match
    order; when every captured name is a free variable name the keys are
    exactly the free variable names.  For the documentation example
    [image_input] comes before [str_input], whatever the order in which the
    set of free variables is iterated. *)
Theorem get_inputs_for_prompt_template_keys (undeclared : list string) (template_str : string) :
  List.NoDup undeclared ->
  (exists d,
     get_inputs_for_prompt_template undeclared template_str = Ok d /\
     let vars := sorted_by_key (str_find template_str) undeclared in
     let added := new_keys vars (image_names template_str) in
     dict_keys d = vars ++ added /\
     Permutation vars undeclared /\
     StronglySorted (key_le (str_find template_str)) vars /\
     (forall n, In n added -> In n (image_names template_str) /\ ~ In n undeclared) /\
     ((forall n, In n (image_names template_str) -> In n undeclared) ->
      dict_keys d = vars /\ forall k, In k (dict_keys d) <-> In k undeclared)) /\
  (forall vars,
     Permutation ["image_input"; "str_input"] vars ->
     exists d,
       get_inputs_for_prompt_template vars example_template = Ok d /\
       dict_keys d = ["image_input"; "str_input"]).
Proof.
  intros Hnd. split.
  - destruct (get_inputs_for_prompt_template_dict_keys undeclared template_str Hnd)
      as (d & Hd & Hkeys & _).
    exists d. split; [exact Hd|]. cbn zeta.
    pose proof (sorted_by_key_perm (str_find template_str) undeclared) as Hperm.
    split; [exact Hkeys|]. split; [exact Hperm|].
    split; [apply (sorted_by_key_sorted (str_find template_str))|]. split.
    + intros n Hn. apply new_keys_spec in Hn as [H1 H2]. split; [exact H1|].
      intros Hin. apply H2. eapply Permutation_in; [symmetry; exact Hperm | exact Hin].
    + intros Hall. rewrite Hkeys, new_keys_known, app_nil_r.
      * split; [reflexivity|]. intros k. split; intros Hk.
        -- eapply Permutation_in; [exact Hperm | exact Hk].
        -- eapply Permutation_in; [symmetry; exact Hperm | exact Hk].
      * intros n Hn. eapply Permutation_in; [symmetry; exact Hperm | auto].
  - intros vars Hp. apply Permutation_length_2_inv in Hp as [->| ->];
      eexists; (split; [apply get_inputs_for_prompt_template_result|]);
      vm_compute; reflexivity.
Qed.

(** C5.  Every match of the image pattern sets the Input Definition of the
    captured, white-space-trimmed name to the image type, replacing the
    default string typing or adding the name; every other free variable keeps
    the string typing.  The overrides come after the initial mapping is
    built: its keys, in detection order, stay at the front in that order, and
    only names that were not free variables are added behind them. *)
Theorem get_inputs_for_prompt_template_image_override
    (undeclared : list string) (template_str : string) :
  List.NoDup undeclared ->
  exists d,
    get_inputs_for_prompt_template undeclared template_str = Ok d /\
    (forall m, In m (finditer template_str) ->
               dict_get d (strip (group2 m)) = Some image_definition) /\
    (forall k, ~ In k (image_names template_str) ->
               dict_get d k =
               if List.existsb (String.eqb k) undeclared then Some string_definition
               else None) /\
    exists added,
      dict_keys d = sorted_by_key (str_find template_str) undeclared ++ added /\
      forall n, In n added -> In n (image_names template_str) /\ ~ In n undeclared.
Proof.
  intros Hnd.
  destruct (get_inputs_for_prompt_template_dict_keys undeclared template_str Hnd)
    as (d & Hd & Hkeys & Hget).
  exists d. split; [exact Hd|]. split; [|split].
  - intros m Hm. rewrite Hget.
    rewrite (proj2 (existsb_eqb_In _ (image_names template_str))); [reflexivity|].
    unfold image_names. apply List.in_map_iff. eauto.
  - intros k Hk. rewrite Hget.
    destruct (List.existsb (String.eqb k) (image_names template_str)) eqn:E;
      [|reflexivity].
    apply existsb_eqb_In in E. contradiction.
  - eexists. split; [exact Hkeys|].
    intros n Hn. apply new_keys_spec in Hn as [H1 H2]. split; [exact H1|].
    intros Hin. apply H2.
    eapply Permutation_in; [symmetry; apply sorted_by_key_perm | exact Hin].
Qed.

Lemma NoDup_example_inputs : List.NoDup ["str_input"; "image_input"].
Proof.
  constructor; [cbn; intros [H|[]]; discriminate|].
  constructor; [intros [] | constructor].
Qed.

Lemma get_inputs_for_prompt_template_keys_witness :
  exists d,
    get_inputs_for_prompt_template ["str_input"; "image_input"] example_template = Ok d /\
    dict_keys d = ["image_input"; "str_input"].
Proof.
  destruct (proj1 (get_inputs_for_prompt_template_keys
                     ["str_input"; "image_input"] example_template NoDup_example_inputs))
    as (d & Hd & Hkeys & _).
  exists d. split; [exact Hd|]. rewrite Hkeys. vm_compute. reflexivity.
Defined.

(** C2 as stated fails: in [![image]({{ a.b }})] the only free variable is
    [a], yet the returned mapping also has the key [a.b]. *)
Lemma get_inputs_for_prompt_template_keys_counterexample :
  exists d,
    get_inputs_for_prompt_template ["a"] "![image]({{ a.b }})" = Ok d /\
    dict_keys d = ["a"; "a.b"] /\
    ~ (forall k, In k (dict_keys d) <-> In k ["a"]).
Proof.
  eexists. split; [vm_compute; reflexivity|]. split; [reflexivity|].
  intros H. destruct (proj1 (H "a.b")) as [E|[]]; [right; left; reflexivity|].
  discriminate.
Qed.

Lemma get_inputs_for_prompt_template_image_override_witness :
  exists d,
    get_inputs_for_prompt_template ["str_input"; "image_input"] example_template = Ok d /\
    dict_get d "image_input" = Some image_definition /\
    dict_get d "str_input" = Some string_definition.
Proof.
  destruct (get_inputs_for_prompt_template_image_override
              ["str_input"; "image_input"] example_template NoDup_example_inputs)
    as (d & Hd & Himage & Hother & _).
  exists d. split; [exact Hd|]. split.
  - apply (Himage (mk_image_match "image" "image_input" " and string input {{str_input}}")).
    vm_compute. left. reflexivity.
  - apply (Hother "str_input"). vm_compute. intros [H|[]]. discriminate.
Defined.

(** ** Tool Definition Builder *)

Lemma prefix_empty (s : string) : String.prefix "" s = true.
Proof. now destruct s. Qed.

Lemma prefix_refl (s : string) : String.prefix s s = true.
Proof.
  induction s as [|c s IH]; [reflexivity|]. cbn [String.prefix].
  destruct (ascii_dec c c); [exact IH | contradiction].
Qed.

Lemma find_dot_occurs (s : string) :
  forall i, (0 <= i)%Z -> (0 <=? find_from "." s i)%Z = occurs "." s.
Proof.
  induction s as [|c s IH]; intros i Hi; [reflexivity|].
  cbn [find_from occurs String.prefix].
  destruct (ascii_dec "." c) as [<-|Hne].
  - rewrite prefix_empty, Ascii.eqb_refl. cbn [orb]. now apply Z.leb_le.
  - rewrite (proj2 (Ascii.eqb_neq "." c) Hne). cbn [orb]. apply IH. lia.
Qed.

Lemma str_contains_dot (s : string) : str_contains "." s = occurs "." s.
Proof. unfold str_contains, str_find. now apply find_dot_occurs. Qed.

Lemma occurs_app_dot (a b : string) : occurs "." (a ++ "." ++ b) = true.
Proof.
  induction a as [|c a IH].
  - reflexivity.
  - rewrite append_cons. cbn [occurs]. rewrite IH. apply orb_true_r.
Qed.

(** Once an occurrence is recognised, its remaining characters are passed
    over. *)
Lemma replace_aux_skip (old new s rest : string) :
  nonempty old = true ->
  replace_aux old new (String.length s) (s ++ rest) = replace_aux old new 0 rest.
Proof.
  intros Hold. induction s as [|c s IH]; [reflexivity|].
  rewrite append_cons. cbn [String.length replace_aux]. exact IH.
Qed.

(** Removing [old] from [cls ++ old] gives [cls] when [old] occurs nowhere
    earlier. *)
Lemma str_replace_suffix (cls old : string) :
  nonempty old = true ->
  (forall before rest, cls = (before ++ rest)%string -> nonempty rest = true ->
                       String.prefix old (rest ++ old) = false) ->
  str_replace (cls ++ old) old "" = cls.
Proof.
  intros Hold. unfold str_replace. induction cls as [|c cls IH]; intros Hno.
  - rewrite append_nil_l. destruct old as [|o old']; [discriminate|].
    cbn [replace_aux]. rewrite prefix_refl. cbn [nonempty String.length].
    replace (S (String.length old') - 1) with (String.length old') by lia.
    rewrite append_nil_l.
    pose proof (replace_aux_skip (String o old') "" old' "" eq_refl) as Hskip.
    rewrite append_empty_r in Hskip. rewrite Hskip. reflexivity.
  - rewrite append_cons. cbn [replace_aux].
    rewrite <- append_cons, (Hno "" (String c cls)) by reflexivity.
    f_equal. apply IH.
    intros before rest E Hr. apply (Hno (String c before) rest); [|exact Hr].
    now rewrite append_cons, E.
Qed.

Section BuilderProperties.

Variable py_str : pyval -> string.
Variable from_type : anno -> ValueType.

Lemma function_to_tool_definition_class_name
    (c : Callable) (type : option string) (initialize_inputs : option (dict Param))
    (tool : Tool) :
  function_to_tool_definition py_str from_type c type initialize_inputs = Ok tool ->
  class_name tool =
  if occurs "." (qualname (unwrapped c))
  then Some (str_replace (qualname (unwrapped c)) ("." ++ name (unwrapped c)) "")
  else None.
Proof.
  unfold function_to_tool_definition.
  destruct (function_to_interface py_str from_type (unwrapped c) initialize_inputs false)
    as [[[inputs outputs] conns]|e]; cbn [bind]; [|discriminate].
  intros E. inversion E; subst. cbn [class_name]. now rewrite str_contains_dot.
Qed.

(** The class name is absent without a separator, and it is the qualified
    name without its last component when the dotted function name occurs
    nowhere earlier in the qualified name. *)
Lemma class_name_of_method
    (c : Callable) (type : option string) (initialize_inputs : option (dict Param))
    (tool : Tool) :
  function_to_tool_definition py_str from_type c type initialize_inputs = Ok tool ->
  (occurs "." (qualname (unwrapped c)) = false -> class_name tool = None) /\
  (forall cls,
     qualname (unwrapped c) = (cls ++ "." ++ name (unwrapped c))%string ->
     (forall before rest,
        cls = (before ++ rest)%string -> nonempty rest = true ->
        String.prefix ("." ++ name (unwrapped c))
          (rest ++ "." ++ name (unwrapped c)) = false) ->
     class_name tool = Some cls).
Proof.
  intros H. apply function_to_tool_definition_class_name in H. split.
  - intros Hno. now rewrite Hno in H.
  - intros cls Hq Hfirst. rewrite H, Hq, occurs_app_dot.
    f_equal. now apply str_replace_suffix.
Qed.

End BuilderProperties.

(** C8 fails on the code: for the method [Tools.run_all.run] the class name
    is not the qualified name without its trailing [.run], because every
    occurrence of [.run] is removed. *)
Theorem function_to_tool_definition_class_name_nested :
  qualname (unwrapped nested_method) =
    ("Tools.run_all" ++ "." ++ name (unwrapped nested_method))%string /\
  exists tool,
    function_to_tool_definition str_of_scalar from_type_by_name nested_method None None
    = Ok tool /\
    class_name tool = Some "Tools_all" /\
    class_name tool <> Some "Tools.run_all".
Proof.
  split; [reflexivity|]. eexists. split; [vm_compute; reflexivity|].
  split; [reflexivity | discriminate].
Qed.

(** * Further properties *)

(** ** Parameter Describer *)

Section DescriberFurther.

Variable py_str : pyval -> string.
Variable from_type : anno -> ValueType.

Abbreviation describe := (param_to_definition py_str from_type).

(** [param_to_definition] as the composition of its steps. *)
Lemma param_to_definition_steps (param : Param) (gen : bool) :
  describe param gen =
  let '(enum, value_type) := enum_step py_str (inferred_value_type param) in
  let '(typ, custom_type_conn, is_connection) := classify from_type value_type in
  (mk_InputDefinition typ (value_to_str (param_default param)) None enum
     (if negb gen then None else custom_type_conn),
   is_connection).
Proof. reflexivity. Qed.

Lemma classify_shape (value_type : anno) :
  let '(typ, custom_type_conn, is_connection) := classify from_type value_type in
  (is_connection = true -> List.forallb is_name_tag typ = true) /\
  (is_connection = false -> exists v, typ = [TagValue v]) /\
  (is_connection = false -> custom_type_conn = None).
Proof.
  unfold classify. destruct (is_connection_value value_type).
  - destruct (is_custom_strong_value value_type); repeat split; try discriminate.
  - destruct value_type as [t|args|candidates|members];
      try (repeat split; try discriminate; eauto).
    destruct (List.forallb is_connection_type candidates); cbn [negb].
    + rewrite fold_conn_step. cbn [app]. repeat split; try discriminate.
      intros _. induction (tag_names candidates); [reflexivity | assumption].
    + repeat split; try discriminate; eauto.
Qed.

(** X1.  A parameter annotated [typing.Optional[T]], for a single type [T]
    or for a [typing.Union], gets the Input Definition and the connection
    flag of the parameter annotated [T].  A parameter annotated with a union
    written [X | Y], as in [T | None], does not: it is never
    connection-typed, has no enum and no custom types, and its only tag is
    the value type the fixed mapping gives to the union object. *)
Theorem param_to_definition_Optional (d : default_value) (k : param_kind) (gen : bool) :
  (forall T x, Optional (Plain T) = Some x ->
               describe (mk_Param d x k) gen = describe (mk_Param d (Plain T) k) gen) /\
  (forall args x, Optional (Union args) = Some x ->
                  describe (mk_Param d x k) gen = describe (mk_Param d (Union args) k) gen) /\
  (forall members,
     let r := describe (mk_Param d (UnionType members) k) gen in
     snd r = false /\ enum (fst r) = None /\ custom_type (fst r) = None /\
     type (fst r) = [TagValue (from_type (UnionType members))]).
Proof.
  split; [|split].
  - intros T x Hx. rewrite !param_to_definition_steps. unfold inferred_value_type.
    cbn [annotation param_default].
    destruct (resolve_annotation_Optional_class T) as (a & Ha & Hr).
    rewrite Hx in Ha. inversion Ha; subst. now rewrite Hr.
  - intros args x Hx. rewrite !param_to_definition_steps. unfold inferred_value_type.
    cbn [annotation param_default].
    now rewrite (resolve_annotation_Optional_union args x (or_introl Hx)).
  - intros members. cbn zeta. rewrite param_to_definition_steps.
    unfold inferred_value_type. cbn [annotation param_default].
    change (resolve_annotation (UnionType members)) with (UnionType members).
    cbn [is_empty_anno]. rewrite andb_false_r. cbn. now destruct gen.
Qed.

(** X2.  [gen_custom_type_conn] decides the custom-type list and nothing else:
    without it the list is absent, and the tags, the default, the enum and the
    connection flag are the same either way.  A custom-type list is only ever
    present on a connection-typed parameter. *)
Theorem param_to_definition_custom_type (param : Param) :
  let hidden := describe param false in
  let shown := describe param true in
  custom_type (fst hidden) = None /\
  type (fst hidden) = type (fst shown) /\
  default (fst hidden) = default (fst shown) /\
  enum (fst hidden) = enum (fst shown) /\
  snd hidden = snd shown /\
  (forall gen, custom_type (fst (describe param gen)) <> None ->
               gen = true /\ snd (describe param gen) = true).
Proof.
  cbn zeta. rewrite !param_to_definition_steps.
  destruct (enum_step py_str (inferred_value_type param)) as [e vt].
  pose proof (classify_shape vt) as Hs.
  destruct (classify from_type vt) as [[typ c] isc]. cbn.
  repeat split; try reflexivity.
  - rewrite param_to_definition_steps in H.
    destruct (enum_step py_str (inferred_value_type param)) as [e' vt'].
    destruct (classify from_type vt') as [[typ' c'] isc'].
    destruct gen; [reflexivity | cbn in H; congruence].
  - rewrite param_to_definition_steps in *.
    destruct (enum_step py_str (inferred_value_type param)) as [e' vt'].
    pose proof (classify_shape vt') as Hs'.
    destruct (classify from_type vt') as [[typ' c'] isc'].
    destruct Hs' as (_ & _ & Hc). destruct isc'; [reflexivity|].
    cbn in H. rewrite (Hc eq_refl) in H. now destruct gen.
Qed.

(** X3.  The tag list tells connections from the rest: a connection-typed
    parameter has class names only, any other parameter has exactly one tag
    and that tag is a value type. *)
Theorem param_to_definition_tags (param : Param) (gen : bool) :
  let d := fst (describe param gen) in
  let is_connection := snd (describe param gen) in
  (is_connection = true -> List.forallb is_name_tag (type d) = true) /\
  (is_connection = false -> exists v, type d = [TagValue v]) /\
  is_connection = List.forallb is_name_tag (type d).
Proof.
  cbn zeta. rewrite param_to_definition_steps.
  destruct (enum_step py_str (inferred_value_type param)) as [e vt].
  pose proof (classify_shape vt) as Hs.
  destruct (classify from_type vt) as [[typ c] isc]. cbn [fst snd type].
  destruct Hs as (H1 & H2 & _). split; [exact H1|]. split; [exact H2|].
  destruct isc.
  - now rewrite H1.
  - destruct (H2 eq_refl) as [v ->]. reflexivity.
Qed.

(** X4.  An unannotated parameter with a default is described as if it were
    annotated with the class of its default; a parameter with an annotation
    gets its tags, enum, custom types and connection flag from the annotation
    alone, whatever its default. *)
Theorem param_to_definition_default_class
    (d : default_value) (a : anno) (k : param_kind) (gen : bool) :
  (is_empty_default d = false ->
   describe (mk_Param d (Plain TEmpty) k) gen =
   describe (mk_Param d (Plain (class_of_default d)) k) gen) /\
  (is_empty_anno (resolve_annotation a) = false ->
   let r := describe (mk_Param d a k) gen in
   let r0 := describe (mk_Param DEmpty a k) gen in
   type (fst r) = type (fst r0) /\ enum (fst r) = enum (fst r0) /\
   custom_type (fst r) = custom_type (fst r0) /\ snd r = snd r0).
Proof.
  split.
  - intros Hd. rewrite !param_to_definition_steps. unfold inferred_value_type.
    cbn [annotation param_default]. rewrite Hd.
    change (resolve_annotation (Plain TEmpty)) with (Plain TEmpty).
    change (resolve_annotation (Plain (class_of_default d)))
      with (Plain (class_of_default d)).
    cbn [negb andb is_empty_anno].
    destruct (class_of_default d); reflexivity.
  - intros Ha. cbn zeta. rewrite !param_to_definition_steps. unfold inferred_value_type.
    cbn [annotation param_default]. rewrite Ha, !andb_false_r.
    destruct (enum_step py_str (resolve_annotation a)) as [e vt].
    destruct (classify from_type vt) as [[typ c] isc]. cbn. auto.
Qed.

End DescriberFurther.

Lemma param_to_definition_Optional_witness :
  param_to_definition str_of_scalar from_type_by_name
    (mk_Param DNone (Union [TConnection "AzureOpenAIConnection"; TNoneType]) KEYWORD_ONLY)
    false =
  param_to_definition str_of_scalar from_type_by_name
    (mk_Param DNone (Plain (TConnection "AzureOpenAIConnection")) KEYWORD_ONLY) false.
Proof.
  apply (proj1 (param_to_definition_Optional str_of_scalar from_type_by_name
                  DNone KEYWORD_ONLY false)
           (TConnection "AzureOpenAIConnection")).
  reflexivity.
Defined.

Lemma param_to_definition_custom_type_witness :
  let param := mk_Param DEmpty (Plain (TCustomStrong "MyConnection")) KEYWORD_ONLY in
  snd (param_to_definition str_of_scalar from_type_by_name param true) = true.
Proof.
  apply (proj2 (proj2 (proj2 (proj2 (proj2
    (param_to_definition_custom_type str_of_scalar from_type_by_name
       (mk_Param DEmpty (Plain (TCustomStrong "MyConnection")) KEYWORD_ONLY))))))
    true).
  vm_compute. discriminate.
Defined.

Lemma param_to_definition_tags_witness :
  let param := mk_Param DNone (Plain (TBuiltin Bint)) KEYWORD_ONLY in
  exists v, type (fst (param_to_definition str_of_scalar from_type_by_name param false))
            = [TagValue v].
Proof.
  apply (proj1 (proj2
    (param_to_definition_tags str_of_scalar from_type_by_name
       (mk_Param DNone (Plain (TBuiltin Bint)) KEYWORD_ONLY) false))).
  reflexivity.
Defined.

Lemma param_to_definition_default_class_witness :
  param_to_definition str_of_scalar from_type_by_name
    (mk_Param (DInstance (TBuiltin Bint) "3") (Plain TEmpty) KEYWORD_ONLY) false =
  param_to_definition str_of_scalar from_type_by_name
    (mk_Param (DInstance (TBuiltin Bint) "3") (Plain (TBuiltin Bint)) KEYWORD_ONLY) false.
Proof.
  apply (proj1 (param_to_definition_default_class str_of_scalar from_type_by_name
                  (DInstance (TBuiltin Bint) "3") (Plain TEmpty) KEYWORD_ONLY false)).
  reflexivity.
Defined.

(** ** Signature Describer *)

Section DictFresh.

Context {V W : Type}.

Lemma dict_set_fresh (d : dict V) (k : string) (v : V) :
  List.existsb (String.eqb k) (dict_keys d) = false -> dict_set d k v = d ++ [(k, v)].
Proof.
  induction d as [|[k' v'] d IH]; [reflexivity|].
  cbn [dict_keys List.map fst List.existsb dict_set]. rewrite (String.eqb_sym k k').
  destruct (String.eqb k' k); cbn [orb]; [discriminate|].
  intros H. fold (dict_keys d) in H. now rewrite (IH H).
Qed.

(** Assigning under keys that are distinct and new appends the entries. *)
Lemma fold_dict_set_fresh (g : string * W -> V) (l : list (string * W)) :
  forall d : dict V,
    List.NoDup (List.map fst l) ->
    (forall k, In k (List.map fst l) -> ~ In k (dict_keys d)) ->
    List.fold_left (fun acc kv => dict_set acc (fst kv) (g kv)) l d =
    d ++ List.map (fun kv => (fst kv, g kv)) l.
Proof.
  induction l as [|[k w] l IH]; intros d Hnd Hfresh; cbn [List.fold_left List.map].
  - now rewrite app_nil_r.
  - cbn [List.map fst] in Hnd, Hfresh. inversion Hnd as [|? ? Hk Hl]; subst.
    cbn [fst]. rewrite dict_set_fresh.
    + rewrite IH; [now rewrite <- app_assoc | exact Hl |].
      intros k' Hk' Hin. unfold dict_keys in Hin. rewrite List.map_app in Hin.
      apply List.in_app_or in Hin as [Hin|[<-|[]]].
      * eapply Hfresh; [right; exact Hk' | exact Hin].
      * contradiction.
    + destruct (List.existsb (String.eqb k) (dict_keys d)) eqn:E; [|reflexivity].
      apply existsb_eqb_In in E. exfalso. eapply Hfresh; [left; reflexivity | exact E].
Qed.

End DictFresh.

Lemma dict_update_fresh {V : Type} (d other : dict V) :
  List.NoDup (dict_keys other) ->
  (forall k, In k (dict_keys other) -> ~ In k (dict_keys d)) ->
  dict_update d other = d ++ other.
Proof.
  intros Hnd Hfresh. unfold dict_update.
  rewrite (fold_dict_set_fresh (fun kv => snd kv)) by assumption.
  f_equal. induction other as [|[k v] other IH]; [reflexivity|].
  cbn [List.map fst snd]. f_equal. apply IH.
  - now inversion Hnd.
  - intros k' Hk'. apply Hfresh. now right.
Qed.

Lemma NoDup_keys_filter {V : Type} (p : string * V -> bool) (d : dict V) :
  List.NoDup (dict_keys d) -> List.NoDup (dict_keys (List.filter p d)).
Proof.
  induction d as [|[k v] d IH]; intros H; [constructor|].
  cbn [dict_keys List.map fst] in H. inversion H as [|? ? Hk Hd]; subst.
  cbn [List.filter]. destruct (p (k, v)); [|now apply IH].
  cbn [dict_keys List.map fst]. constructor; [|now apply IH].
  intros Hin. apply Hk. unfold dict_keys in *.
  apply List.in_map_iff in Hin as (x & Hx & Hin). apply List.filter_In in Hin as [Hin _].
  apply List.in_map_iff. eauto.
Qed.

Lemma In_keys_filter {V : Type} (p : string * V -> bool) (d : dict V) (k : string) :
  In k (dict_keys (List.filter p d)) -> In k (dict_keys d).
Proof.
  unfold dict_keys. intros Hin.
  apply List.in_map_iff in Hin as (x & Hx & Hin). apply List.filter_In in Hin as [Hin _].
  apply List.in_map_iff. eauto.
Qed.

Section InterfaceFurther.

Variable py_str : pyval -> string.
Variable from_type : anno -> ValueType.

Abbreviation definition_of gen :=
  (fun kv : string * Param => fst (param_to_definition py_str from_type (snd kv) gen)).
Abbreviation connection_typed gen :=
  (fun kv : string * Param => snd (param_to_definition py_str from_type (snd kv) gen)).

(** The loop of [function_to_interface] as a fold and a filter. *)
Lemma resolve_inputs_fold (gen : bool) (all_inputs : dict Param) :
  forall input_defs connection_types,
    resolve_inputs py_str from_type gen all_inputs input_defs connection_types =
    (List.fold_left (fun acc kv => dict_set acc (fst kv) (definition_of gen kv))
       all_inputs input_defs,
     connection_types ++
     List.map (fun kv => type (definition_of gen kv))
       (List.filter (connection_typed gen) all_inputs)).
Proof.
  induction all_inputs as [|[k v] rest IH]; intros defs conns;
    cbn [resolve_inputs List.fold_left List.filter List.map].
  - now rewrite app_nil_r.
  - cbn [fst snd].
    destruct (param_to_definition py_str from_type v gen)
      as [input_def is_connection] eqn:E.
    rewrite IH. cbn [fst snd].
    destruct is_connection; cbn [List.map snd]; [|reflexivity].
    now rewrite E, <- app_assoc.
Qed.

Lemma duplicate_test (f : pyfunc) (init : dict Param) :
  List.existsb nonempty
    (List.filter (fun k => dict_contains (parameters f) k) (dict_keys init)) = true <->
  has_duplicate_input f (Some init).
Proof.
  unfold has_duplicate_input. cbn [initializer_inputs].
  rewrite List.existsb_exists. split.
  - intros (k & Hin & Hk). apply List.filter_In in Hin as [Hin Hc].
    rewrite dict_contains_In in Hc. apply existsb_eqb_In in Hc. eauto.
  - intros (k & Hk & Hin & Hs). exists k. split; [|exact Hk].
    apply List.filter_In. split; [exact Hin|].
    rewrite dict_contains_In. now apply existsb_eqb_In.
Qed.

(** X5.  [function_to_interface] fails exactly when an initializer input has
    the name of a parameter of the signature, [self] and the variadic
    parameters included; the failure is the plain [Exception] that names the
    function.  Otherwise it returns, with an empty outputs mapping. *)
Theorem function_to_interface_duplicates
    (f : pyfunc) (initialize_inputs : option (dict Param)) (gen : bool) :
  (has_duplicate_input f initialize_inputs ->
   function_to_interface py_str from_type f initialize_inputs gen =
   Raise (mk_exn ExceptionC
            ("Duplicate inputs found from " ++ repr_name (name f) ++ " and " ++
             dquote ++ "__init__()" ++ dquote ++ "!"))) /\
  (~ has_duplicate_input f initialize_inputs ->
   exists input_defs connection_types,
     function_to_interface py_str from_type f initialize_inputs gen =
     Ok (input_defs, [], connection_types)).
Proof.
  unfold function_to_interface.
  destruct initialize_inputs as [[|kv init]|].
  - split.
    + intros (k & _ & [] & _).
    + intros _. cbn [bind]. rewrite resolve_inputs_fold. eauto.
  - pose proof (duplicate_test f (kv :: init)) as Hd.
    destruct (List.existsb nonempty _); cbn [bind].
    + split; [reflexivity|]. intros Hn. exfalso. apply Hn, Hd. reflexivity.
    + split.
      * intros H. apply Hd in H. discriminate.
      * intros _. rewrite resolve_inputs_fold. eauto.
  - split.
    + intros (k & _ & [] & _).
    + intros _. cbn [bind]. rewrite resolve_inputs_fold. eauto.
Qed.

(** The result on a well-formed signature: distinct initializer names,
    distinct non-empty parameter names. *)
Lemma function_to_interface_ok
    (f : pyfunc) (initialize_inputs : option (dict Param)) (gen : bool) :
  List.NoDup (dict_keys (initializer_inputs initialize_inputs)) ->
  List.NoDup (dict_keys (parameters f)) ->
  (forall k, In k (dict_keys (parameters f)) -> nonempty k = true) ->
  ~ has_duplicate_input f initialize_inputs ->
  function_to_interface py_str from_type f initialize_inputs gen =
  Ok (List.map (fun kv => (fst kv, definition_of gen kv)) (declared_inputs f initialize_inputs),
      [],
      List.map (fun kv => type (definition_of gen kv))
        (List.filter (connection_typed gen) (declared_inputs f initialize_inputs))).
Proof.
  intros Hinit Hsign Hnames Hdup.
  assert (Hsig : List.NoDup (dict_keys (signature_inputs f)))
    by now apply NoDup_keys_filter.
  assert (Hdisj : forall k, In k (dict_keys (signature_inputs f)) ->
                            ~ In k (dict_keys (initializer_inputs initialize_inputs))).
  { intros k Hk Hin. apply In_keys_filter in Hk. apply Hdup. exists k. auto. }
  assert (Hall : function_to_interface py_str from_type f initialize_inputs gen =
                 let '(defs, conns) :=
                   resolve_inputs py_str from_type gen
                     (dict_update (initializer_inputs initialize_inputs)
                        (signature_inputs f)) [] [] in
                 Ok (defs, [], conns)).
  { unfold function_to_interface. destruct initialize_inputs as [[|kv init]|];
      try reflexivity.
    pose proof (duplicate_test f (kv :: init)) as Hd.
    destruct (List.existsb nonempty _); [|reflexivity].
    exfalso. apply Hdup, Hd. reflexivity. }
  rewrite Hall, dict_update_fresh by assumption. fold (declared_inputs f initialize_inputs).
  rewrite resolve_inputs_fold.
  rewrite (fold_dict_set_fresh (definition_of gen)).
  - reflexivity.
  - unfold declared_inputs. rewrite List.map_app. apply List.NoDup_app; try assumption.
    intros k Hk Hk'. now apply (Hdisj k).
  - intros k _ [].
Qed.

(** X6.  On a signature with distinct non-empty parameter names and distinct
    initializer names that it does not share, the inputs are the initializer
    inputs followed by the parameters of the signature in declaration order,
    without [self] and the variadic parameters, each with the Input Definition
    of its parameter. *)
Theorem function_to_interface_inputs
    (f : pyfunc) (initialize_inputs : option (dict Param)) (gen : bool) :
  List.NoDup (dict_keys (initializer_inputs initialize_inputs)) ->
  List.NoDup (dict_keys (parameters f)) ->
  (forall k, In k (dict_keys (parameters f)) -> nonempty k = true) ->
  ~ has_duplicate_input f initialize_inputs ->
  exists input_defs connection_types,
    function_to_interface py_str from_type f initialize_inputs gen =
    Ok (input_defs, [], connection_types) /\
    input_defs =
      List.map (fun kv => (fst kv, definition_of gen kv))
        (declared_inputs f initialize_inputs) /\
    dict_keys input_defs =
      dict_keys (initializer_inputs initialize_inputs) ++ dict_keys (signature_inputs f) /\
    (forall k, In k (dict_keys input_defs) ->
       In k (dict_keys (initializer_inputs initialize_inputs)) \/
       (k <> "self" /\ exists v, In (k, v) (parameters f) /\ is_var_param v = false)).
Proof.
  intros H1 H2 H3 H4. eexists. eexists.
  split; [now apply function_to_interface_ok|]. split; [reflexivity|].
  assert (Hkeys : dict_keys (List.map (fun kv => (fst kv, definition_of gen kv))
                               (declared_inputs f initialize_inputs)) =
                  dict_keys (initializer_inputs initialize_inputs) ++
                  dict_keys (signature_inputs f)).
  { unfold dict_keys, declared_inputs. rewrite List.map_map, List.map_app. reflexivity. }
  split; [exact Hkeys|].
  intros k Hk. rewrite Hkeys in Hk. apply List.in_app_or in Hk as [Hk|Hk]; [now left|].
  right. unfold dict_keys, signature_inputs in Hk.
  apply List.in_map_iff in Hk as ([k' v] & <- & Hin).
  apply List.filter_In in Hin as [Hin Hp]. cbn [fst snd] in *.
  apply andb_prop in Hp as [Hself Hvar].
  split.
  - intros ->. discriminate.
  - exists v. split; [exact Hin|]. now destruct (is_var_param v).
Qed.

Lemma connection_flag_tags (param : Param) (gen : bool) :
  snd (param_to_definition py_str from_type param gen) =
  List.forallb is_name_tag (type (fst (param_to_definition py_str from_type param gen))).
Proof.
  rewrite param_to_definition_steps.
  destruct (enum_step py_str (inferred_value_type param)) as [e vt].
  pose proof (classify_shape from_type vt) as Hs.
  destruct (classify from_type vt) as [[typ c] isc]. cbn [fst snd type].
  destruct Hs as (H1 & H2 & _). destruct isc.
  - now rewrite H1.
  - destruct (H2 eq_refl) as [v ->]. reflexivity.
Qed.

(** X7.  On such a signature the connection types returned beside the inputs
    are, in input order, the tag lists of exactly the inputs whose tags are
    all class names. *)
Theorem function_to_interface_connection_types
    (f : pyfunc) (initialize_inputs : option (dict Param)) (gen : bool)
    (input_defs : dict InputDefinition) (outputs : dict unit)
    (connection_types : list (list type_tag)) :
  List.NoDup (dict_keys (initializer_inputs initialize_inputs)) ->
  List.NoDup (dict_keys (parameters f)) ->
  (forall k, In k (dict_keys (parameters f)) -> nonempty k = true) ->
  function_to_interface py_str from_type f initialize_inputs gen =
    Ok (input_defs, outputs, connection_types) ->
  connection_types =
    List.filter (List.forallb is_name_tag) (List.map (fun kd => type (snd kd)) input_defs).
Proof.
  intros H1 H2 H3 Hr.
  assert (Hdup : ~ has_duplicate_input f initialize_inputs).
  { intros Hd.
    rewrite (proj1 (function_to_interface_duplicates f initialize_inputs gen) Hd) in Hr.
    discriminate. }
  rewrite function_to_interface_ok in Hr by assumption.
  inversion Hr; subst. clear Hr.
  rewrite List.map_map. cbn [snd]. rewrite List.filter_map_swap.
  f_equal. apply List.filter_ext. intros kv. apply connection_flag_tags.
Qed.

End InterfaceFurther.

(** ** Tool Definition Builder *)

Lemma dict_get_fold_set {V W : Type} (g : string * W -> V) (l : list (string * W)) (k : string) (x : V) :
  forall d : dict V,
    dict_get (List.fold_left (fun acc kv => dict_set acc (fst kv) (g kv)) l d) k = Some x ->
    (exists kv, In kv l /\ x = g kv) \/ dict_get d k = Some x.
Proof.
  induction l as [|kv l IH]; intros d H; cbn [List.fold_left] in H; [now right|].
  apply IH in H as [(kv' & Hin & ->)|H].
  - left. exists kv'. split; [now right | reflexivity].
  - rewrite dict_get_set in H. destruct (String.eqb (fst kv) k).
    + left. exists kv. split; [now left | congruence].
    + now right.
Qed.

Section ToolFurther.

Variable py_str : pyval -> string.
Variable from_type : anno -> ValueType.

Lemma hidden_custom_type (param : Param) :
  custom_type (fst (param_to_definition py_str from_type param false)) = None /\
  description (fst (param_to_definition py_str from_type param false)) = None.
Proof.
  rewrite param_to_definition_steps.
  destruct (enum_step py_str (inferred_value_type param)) as [e vt].
  destruct (classify from_type vt) as [[typ c] isc]. split; reflexivity.
Qed.

Lemma function_to_interface_result
    (f : pyfunc) (initialize_inputs : option (dict Param)) (gen : bool)
    (input_defs : dict InputDefinition) (outputs : dict unit)
    (connection_types : list (list type_tag)) :
  function_to_interface py_str from_type f initialize_inputs gen =
    Ok (input_defs, outputs, connection_types) ->
  outputs = [] /\
  forall k d, dict_get input_defs k = Some d ->
              exists param, d = fst (param_to_definition py_str from_type param gen).
Proof.
  unfold function_to_interface.
  destruct (match initialize_inputs with
            | Some (_ :: _ as init) => _
            | _ => Ok []
            end) as [all_inputs|e]; cbn [bind]; [|discriminate].
  rewrite resolve_inputs_fold. intros E. inversion E; subst. clear E.
  split; [reflexivity|]. intros k d Hget.
  apply dict_get_fold_set in Hget as [(kv & _ & ->)|Hget]; [eauto | discriminate].
Qed.

(** X8.  A tool definition that is built carries the qualified name, the
    simple name and the module of the original function (the one behind
    [__original_function] when there is one), is marked built-in with stage
    [test], has no outputs, never has an empty description, and none of its
    inputs carries a custom-type list or a description. *)
Theorem function_to_tool_definition_fields
    (c : Callable) (tool_type_arg : option string)
    (initialize_inputs : option (dict Param)) (tool : Tool) :
  function_to_tool_definition py_str from_type c tool_type_arg initialize_inputs = Ok tool ->
  tool_name tool = qualname (unwrapped c) /\
  tool_function tool = name (unwrapped c) /\
  tool_module tool = module (unwrapped c) /\
  tool_type tool = tool_type_arg /\
  is_builtin tool = true /\
  stage tool = "test" /\
  tool_outputs tool = [] /\
  tool_description tool <> Some "" /\
  (forall k d, dict_get (tool_inputs tool) k = Some d ->
               custom_type d = None /\ description d = None).
Proof.
  unfold function_to_tool_definition.
  destruct (function_to_interface py_str from_type (unwrapped c) initialize_inputs false)
    as [[[inputs outputs] conns]|e] eqn:Hi; cbn [bind]; [|discriminate].
  apply function_to_interface_result in Hi as [-> Hvalues].
  intros E. inversion E; subst. clear E.
  cbn [tool_name tool_function tool_module tool_type is_builtin stage tool_outputs
       tool_description tool_inputs].
  do 7 (split; [reflexivity|]). split.
  - destruct (getdoc (unwrapped c)) as [[|ch doc]|]; discriminate.
  - intros k d Hget. destruct (Hvalues k d Hget) as [param ->].
    apply hidden_custom_type.
Qed.

End ToolFurther.

Ltac solve_NoDup :=
  repeat (constructor; [cbn; intuition discriminate|]); constructor.

Lemma sample_no_duplicate : ~ has_duplicate_input (func nested_method) (Some sample_initializer).
Proof.
  intros (k & _ & [<-|[]] & [H|[H|[]]]); discriminate.
Qed.

Lemma function_to_interface_duplicates_witness :
  (exists e,
     function_to_interface str_of_scalar from_type_by_name (func nested_method)
       (Some [("text", mk_Param DEmpty (Plain TEmpty) KEYWORD_ONLY)]) false = Raise e) /\
  (exists input_defs connection_types,
     function_to_interface str_of_scalar from_type_by_name (func nested_method)
       (Some sample_initializer) false = Ok (input_defs, [], connection_types)).
Proof.
  split.
  - eexists.
    apply (proj1 (function_to_interface_duplicates str_of_scalar from_type_by_name
                    (func nested_method)
                    (Some [("text", mk_Param DEmpty (Plain TEmpty) KEYWORD_ONLY)]) false)).
    exists "text". split; [reflexivity|]. split; cbn; auto.
  - apply (proj2 (function_to_interface_duplicates str_of_scalar from_type_by_name
                    (func nested_method) (Some sample_initializer) false)).
    exact sample_no_duplicate.
Defined.

Lemma function_to_interface_inputs_witness :
  exists input_defs connection_types,
    function_to_interface str_of_scalar from_type_by_name (func nested_method)
      (Some sample_initializer) false = Ok (input_defs, [], connection_types) /\
    dict_keys input_defs = ["connection"; "text"].
Proof.
  destruct (function_to_interface_inputs str_of_scalar from_type_by_name
              (func nested_method) (Some sample_initializer) false)
    as (defs & conns & Hr & _ & Hkeys & _).
  - cbn. solve_NoDup.
  - cbn. solve_NoDup.
  - cbn. intros k [<-|[<-|[]]]; reflexivity.
  - exact sample_no_duplicate.
  - exists defs, conns. split; [exact Hr | exact Hkeys].
Defined.

Lemma function_to_interface_connection_types_witness :
  [[TagName "AzureOpenAIConnection"]] =
  List.filter (List.forallb is_name_tag)
    (List.map (fun kd => type (snd kd))
       [("connection",
         mk_InputDefinition [TagName "AzureOpenAIConnection"] None None None None);
        ("text", mk_InputDefinition [TagValue STRING] None None None None)]).
Proof.
  apply (function_to_interface_connection_types str_of_scalar from_type_by_name
           (func nested_method) (Some sample_initializer) false _ []).
  - cbn. solve_NoDup.
  - cbn. solve_NoDup.
  - cbn. intros k [<-|[<-|[]]]; reflexivity.
  - reflexivity.
Defined.

Lemma function_to_tool_definition_fields_witness :
  match function_to_tool_definition str_of_scalar from_type_by_name nested_method
          None (Some sample_initializer) with
  | Ok tool => tool_name tool = "Tools.run_all.run" /\ tool_outputs tool = []
  | Raise _ => False
  end.
Proof.
  destruct (function_to_tool_definition str_of_scalar from_type_by_name nested_method
              None (Some sample_initializer)) as [tool|e] eqn:E.
  - destruct (function_to_tool_definition_fields _ _ _ _ _ _ E)
      as (H1 & _ & _ & _ & _ & _ & H7 & _).
    split; [exact H1 | exact H7].
  - vm_compute in E. discriminate.
Defined.

(** ** Template Variable Extractor *)

Lemma new_keys_complete (names : list string) :
  forall known n, In n names -> In n known \/ In n (new_keys known names).
Proof.
  induction names as [|x rest IH]; intros known n; cbn [new_keys]; [contradiction|].
  intros [<-|Hn].
  - destruct (List.existsb (String.eqb x) known) eqn:E.
    + left. now apply existsb_eqb_In.
    + right. now left.
  - destruct (List.existsb (String.eqb x) known) eqn:E.
    + now apply IH.
    + destruct (IH (known ++ [x]) n Hn) as [H|H].
      * apply List.in_app_or in H as [H|[<-|[]]]; [now left | right; now left].
      * right. now right.
Qed.

Lemma In_keys_assign {V : Type} (names : list string) (v : V) (d : dict V) (k : string) :
  In k (dict_keys (List.fold_left (fun acc n => dict_set acc n v) names d)) <->
  In k (dict_keys d) \/ In k names.
Proof.
  rewrite dict_keys_assign. split.
  - intros H. apply List.in_app_or in H as [H|H]; [now left|].
    right. now apply new_keys_spec in H.
  - intros [H|H]; apply List.in_or_app; [now left|].
    now apply new_keys_complete.
Qed.

(** X9.  Whatever the template and the free variables reported for it,
    [get_inputs_for_prompt_template] returns a mapping: building the value
    type from group 1 never fails.  Its keys are the free variables together
    with the names captured by image matches; a captured name is typed image,
    any other free variable string. *)
Theorem get_inputs_for_prompt_template_total (undeclared : list string) (template_str : string) :
  exists d,
    get_inputs_for_prompt_template undeclared template_str = Ok d /\
    (forall k, In k (dict_keys d) <-> In k undeclared \/ In k (image_names template_str)) /\
    (forall k,
       dict_get d k =
       if List.existsb (String.eqb k) (image_names template_str) then Some image_definition
       else if List.existsb (String.eqb k) undeclared then Some string_definition
       else None).
Proof.
  eexists. split; [apply get_inputs_for_prompt_template_result|]. split.
  - intros k. rewrite !In_keys_assign. cbn [dict_keys List.map].
    pose proof (sorted_by_key_perm (str_find template_str) undeclared) as Hp.
    split.
    + intros [[[]|H]|H]; [left | now right].
      eapply Permutation_in; [exact Hp | exact H].
    + intros [H|H]; [left; right | now right].
      eapply Permutation_in; [symmetry; exact Hp | exact H].
  - intros k. rewrite !dict_get_assign. cbn [dict_get].
    destruct (List.existsb (String.eqb k) (image_names template_str)); [reflexivity|].
    destruct (List.existsb (String.eqb k) undeclared) eqn:E.
    + apply existsb_eqb_In in E.
      rewrite (proj2 (existsb_eqb_In k _)); [reflexivity|].
      eapply Permutation_in; [symmetry; apply sorted_by_key_perm | exact E].
    + destruct (List.existsb (String.eqb k) (sorted_by_key _ undeclared)) eqn:E';
        [|reflexivity].
      apply existsb_eqb_In in E'.
      eapply Permutation_in in E'; [|apply sorted_by_key_perm].
      apply existsb_eqb_In in E'. congruence.
Qed.

Lemma match_image_at_bang (c : ascii) (s : string) :
  Ascii.eqb "!" c = false -> match_image_at (String c s) = None.
Proof.
  intros H. unfold match_image_at. cbn [expect]. now rewrite H.
Qed.

Lemma finditer_aux_no_bang (s : string) :
  forall skip, occurs "!" s = false -> finditer_aux skip s = [].
Proof.
  induction s as [|c s IH]; intros skip H; [reflexivity|].
  cbn [occurs] in H. apply orb_false_elim in H as [Hc Hs].
  cbn [finditer_aux]. destruct skip; [|now apply IH].
  rewrite (match_image_at_bang c s Hc). now apply IH.
Qed.

(** X10.  A template without an exclamation mark has no image input: the
    mapping holds the free variables, sorted by first occurrence, each typed
    string. *)
Theorem get_inputs_for_prompt_template_plain (undeclared : list string) (template_str : string) :
  List.NoDup undeclared ->
  occurs "!" template_str = false ->
  get_inputs_for_prompt_template undeclared template_str =
  Ok (List.map (fun k => (k, string_definition))
        (sorted_by_key (str_find template_str) undeclared)).
Proof.
  intros Hnd Hno. rewrite get_inputs_for_prompt_template_result.
  unfold image_names, finditer. rewrite finditer_aux_no_bang by exact Hno.
  cbn [List.map List.fold_left]. f_equal.
  pose proof (fold_dict_set_fresh (V := InputDefinition) (W := unit)
                (fun _ => string_definition)
                (List.map (fun k => (k, tt)) (sorted_by_key (str_find template_str) undeclared))
                []) as H.
  rewrite List.map_map in H. cbn [fst] in H. rewrite List.map_id in H.
  rewrite List.map_map in H. cbn [fst app] in H.
  rewrite <- H.
  - clear H. generalize (@nil (string * InputDefinition)).
    induction (sorted_by_key (str_find template_str) undeclared) as [|x l IH];
      intros d; [reflexivity|]. cbn [List.map List.fold_left fst]. apply IH.
  - now apply sorted_by_key_NoDup.
  - intros k _ [].
Qed.

(** Two sorted arrangements of the same names are equal when no two names
    have the same key. *)
Lemma sorted_unique (key : string -> Z) (a : list string) :
  forall b,
    StronglySorted (key_le key) a -> StronglySorted (key_le key) b ->
    Permutation a b ->
    (forall x y, In x a -> In y a -> key x = key y -> x = y) ->
    a = b.
Proof.
  induction a as [|x a IH]; intros b Ha Hb Hp Hinj.
  - apply Permutation_nil in Hp. now subst.
  - destruct b as [|y b]; [symmetry in Hp; now apply Permutation_nil in Hp|].
    inversion Ha as [|? ? Ha' Hx]; subst. inversion Hb as [|? ? Hb' Hy]; subst.
    assert (Hxy : x = y).
    { assert (Hyin : In y (x :: a))
        by (eapply Permutation_in; [symmetry; exact Hp | now left]).
      assert (Hxin : In x (y :: b))
        by (eapply Permutation_in; [exact Hp | now left]).
      destruct Hyin as [E|Hyin]; [exact E|].
      destruct Hxin as [E|Hxin]; [now symmetry|].
      apply Hinj; [now left | now right |].
      rewrite List.Forall_forall in Hx, Hy.
      specialize (Hx y Hyin). specialize (Hy x Hxin). unfold key_le in *. lia. }
    subst y. f_equal. apply IH; try assumption.
    + eapply Permutation_cons_inv. exact Hp.
    + intros u v Hu Hv. apply Hinj; now right.
Qed.

(** X11.  When no two free variables first occur at the same position of the
    template, the returned mapping does not depend on the order in which the
    set of free variables is iterated.  It does depend on it otherwise: in
    [{{ab}}{{a}}] both names are first found at position 2, and the two
    iteration orders give the keys in different order. *)
Theorem get_inputs_for_prompt_template_order_independent
    (undeclared undeclared' : list string) (template_str : string) :
  (Permutation undeclared undeclared' ->
   (forall x y, In x undeclared -> In y undeclared ->
                str_find template_str x = str_find template_str y -> x = y) ->
   get_inputs_for_prompt_template undeclared template_str =
   get_inputs_for_prompt_template undeclared' template_str) /\
  get_inputs_for_prompt_template ["a"; "ab"] "{{ab}}{{a}}" <>
  get_inputs_for_prompt_template ["ab"; "a"] "{{ab}}{{a}}".
Proof.
  split.
  - intros Hp Hinj. rewrite !get_inputs_for_prompt_template_result.
    rewrite (sorted_unique (str_find template_str)
               (sorted_by_key (str_find template_str) undeclared)
               (sorted_by_key (str_find template_str) undeclared')).
    + reflexivity.
    + apply sorted_by_key_sorted.
    + apply sorted_by_key_sorted.
    + rewrite !sorted_by_key_perm. exact Hp.
    + intros x y Hx Hy. apply Hinj.
      * eapply Permutation_in; [apply sorted_by_key_perm | exact Hx].
      * eapply Permutation_in; [apply sorted_by_key_perm | exact Hy].
  - vm_compute. discriminate.
Qed.

Lemma get_inputs_for_prompt_template_plain_witness :
  get_inputs_for_prompt_template ["str_input"]
    "Prompt with only one string input {{str_input}}" =
  Ok [("str_input", string_definition)].
Proof.
  apply (get_inputs_for_prompt_template_plain ["str_input"]
           "Prompt with only one string input {{str_input}}").
  - solve_NoDup.
  - reflexivity.
Defined.

Lemma get_inputs_for_prompt_template_order_independent_witness :
  get_inputs_for_prompt_template ["str_input"; "image_input"] example_template =
  get_inputs_for_prompt_template ["image_input"; "str_input"] example_template.
Proof.
  apply (proj1 (get_inputs_for_prompt_template_order_independent
                  ["str_input"; "image_input"] ["image_input"; "str_input"]
                  example_template)).
  - apply perm_swap.
  - intros x y [<-|[<-|[]]] [<-|[<-|[]]]; vm_compute; intros H;
      first [reflexivity | discriminate].
Defined.

(** ** Dynamic List Response Validator *)

Section ValidatorFurther.

Variable py_str : pyval -> string.
Variable is_json_serializable : pyval -> bool.

Abbreviation validate_response :=
  (validate_dynamic_list_func_response_type py_str is_json_serializable).
Abbreviation item_ok f item := (check_item py_str is_json_serializable f item = Ok tt).

(** An error of the validator: its text starts with the label [f]. *)
Abbreviation labelled f e :=
  (exists detail : string, e = ListFunctionResponseError (f ++ detail)%string).

Lemma check_entry_labelled (f : string) (kv : pyval * pyval) (e : exn) :
  check_entry py_str is_json_serializable f kv = Raise e -> labelled f e.
Proof.
  destruct kv as [key value]. unfold check_entry.
  destruct (negb (isinstance key Bstr)); [intros E; inversion E; eauto|].
  destruct (negb (is_json_serializable value)); [intros E; inversion E; eauto|].
  destruct (negb (List.existsb (isinstance value) [Bstr; Bint; Bfloat; Blist; Bdict]));
    [intros E; inversion E; eauto | discriminate].
Qed.

Lemma check_entries_labelled (f : string) (entries : list (pyval * pyval)) (e : exn) :
  check_entries py_str is_json_serializable f entries = Raise e -> labelled f e.
Proof.
  induction entries as [|kv rest IH]; cbn [check_entries]; [discriminate|].
  destruct (check_entry py_str is_json_serializable f kv) as [u|e'] eqn:E; cbn [bind].
  - exact IH.
  - intros H. inversion H; subst. eapply check_entry_labelled; eauto.
Qed.

Lemma check_item_labelled (f : string) (item : pyval) (e : exn) :
  check_item py_str is_json_serializable f item = Raise e -> labelled f e.
Proof.
  destruct item; cbn [check_item]; try (intros E; inversion E; eauto; fail).
  destruct (negb (has_value_key entries)); [intros E; inversion E; eauto|].
  apply check_entries_labelled.
Qed.

Lemma check_items_labelled (f : string) (items : list pyval) (e : exn) :
  check_items py_str is_json_serializable f items = Raise e -> labelled f e.
Proof.
  induction items as [|item rest IH]; cbn [check_items]; [discriminate|].
  destruct (check_item py_str is_json_serializable f item) as [u|e'] eqn:E; cbn [bind].
  - exact IH.
  - intros H. inversion H; subst. eapply check_item_labelled; eauto.
Qed.

(** X12.  Every error the validator raises is a response-shape error whose
    text is the dynamic-list wrapper around a message that starts with the
    label [f]; it therefore contains the label and the remediation hint. *)
Theorem validate_error_message (response : pyval) (f : string) (e : exn) :
  validate_response response f = Raise e ->
  exn_cls e = ListFunctionResponseErrorC /\
  (exists detail : string, exn_str e = DynamicListError_msg (f ++ detail)) /\
  contains_text f (exn_str e) /\
  contains_text remediation_hint (exn_str e).
Proof.
  intros H.
  assert (Hl : labelled f e).
  { unfold validate_dynamic_list_func_response_type in H.
    destruct (negb (truthy response)); [inversion H; eauto|].
    destruct response; try (inversion H; eauto; fail).
    eapply check_items_labelled; eauto. }
  destruct Hl as [detail ->]. cbn [exn_cls exn_str ListFunctionResponseError].
  split; [reflexivity|]. split; [eauto|]. split.
  - apply contains_text_DynamicListError. auto with text.
  - unfold DynamicListError_msg, remediation_hint. auto 10 with text.
Qed.

Lemma check_items_app (f : string) (good rest : list pyval) :
  List.Forall (fun item => item_ok f item) good ->
  check_items py_str is_json_serializable f (good ++ rest) =
  check_items py_str is_json_serializable f rest.
Proof.
  induction 1 as [|item good Hitem _ IH]; [reflexivity|].
  cbn [app check_items]. rewrite Hitem. exact IH.
Qed.

(** X13.  The validator stops at the first offending element: when the
    elements before it pass, the error raised is the one of that element,
    whatever follows it. *)
Theorem validate_first_offender
    (f : string) (good rest : list pyval) (bad : pyval) (e : exn) :
  List.Forall (fun item => item_ok f item) good ->
  check_item py_str is_json_serializable f bad = Raise e ->
  validate_response (PList (good ++ bad :: rest)) f = Raise e.
Proof.
  intros Hgood Hbad. unfold validate_dynamic_list_func_response_type.
  assert (Ht : truthy (PList (good ++ bad :: rest)) = true) by now destruct good.
  rewrite Ht. cbn [negb].
  rewrite check_items_app by exact Hgood. cbn [check_items]. now rewrite Hbad.
Qed.

Lemma check_items_Ok (f : string) (items : list pyval) :
  check_items py_str is_json_serializable f items = Ok tt <->
  forall item, In item items -> item_ok f item.
Proof.
  induction items as [|item rest IH]; cbn [check_items].
  - split; [intros _ item [] | reflexivity].
  - destruct (check_item py_str is_json_serializable f item) as [[]|e] eqn:E; cbn [bind].
    + rewrite IH. split.
      * intros H x [<-|Hx]; [exact E | now apply H].
      * intros H x Hx. apply H. now right.
    + split; [discriminate|]. intros H.
      specialize (H item (or_introl eq_refl)). congruence.
Qed.

(** X14.  A response is accepted exactly when it is a non-empty list and
    each of its elements is accepted as a response of its own; the empty list
    is rejected. *)
Theorem validate_elementwise (items : list pyval) (f : string) :
  validate_response (PList items) f = Ok tt <->
  items <> [] /\ forall item, In item items -> validate_response (PList [item]) f = Ok tt.
Proof.
  assert (Hone : forall item,
             validate_response (PList [item]) f = Ok tt <-> item_ok f item).
  { intros item. unfold validate_dynamic_list_func_response_type.
    cbn [truthy negb check_items].
    destruct (check_item py_str is_json_serializable f item) as [[]|e]; cbn [bind];
      split; congruence. }
  destruct items as [|item rest].
  - split; [discriminate | intros [H _]; congruence].
  - unfold validate_dynamic_list_func_response_type at 1. cbn [truthy negb].
    rewrite check_items_Ok. split.
    + intros H. split; [discriminate|]. intros x Hx. apply Hone. now apply H.
    + intros [_ H] x Hx. apply Hone. now apply H.
Qed.

End ValidatorFurther.

Lemma validate_error_message_witness :
  contains_text "my_tool.list_items"
    (exn_str (ListFunctionResponseError "my_tool.list_items response can not be empty.")).
Proof.
  apply (validate_error_message str_of_scalar json_serializable
           (PList []) "my_tool.list_items"
           (ListFunctionResponseError "my_tool.list_items response can not be empty.")).
  reflexivity.
Defined.

Lemma validate_first_offender_witness :
  validate_dynamic_list_func_response_type str_of_scalar json_serializable
    (PList [PDict [(PStr "value", PInt 1)]; PDict [(PStr "display_value", PStr "x")];
            PInt 7]) "f" =
  Raise (ListFunctionResponseError "f response dict must have 'value' key.").
Proof.
  apply (validate_first_offender str_of_scalar json_serializable "f"
           [PDict [(PStr "value", PInt 1)]] [PInt 7]
           (PDict [(PStr "display_value", PStr "x")])).
  - constructor; [reflexivity | constructor].
  - reflexivity.
Defined.

(** ** Parameter Augmenter *)

Section AugmenterFurther.

Context {V : Type}.

Abbreviation augment :=
  (append_workspace_triple_to_func_input_params (V := V)).

Lemma augment_union (func_sig_params : gmap string Param)
    (func_input_params_dict ws_triple_dict : option (gmap string V)) :
  exists avail : gmap string V,
    augment func_sig_params func_input_params_dict ws_triple_dict =
      or_empty func_input_params_dict ∪ avail /\
    (forall k v, avail !! k = Some v -> or_empty ws_triple_dict !! k = Some v) /\
    (has_kwargs_param func_sig_params = true -> avail = or_empty ws_triple_dict) /\
    (has_kwargs_param func_sig_params = false ->
     forall k, is_Some (avail !! k) -> is_Some (func_sig_params !! k)).
Proof.
  unfold append_workspace_triple_to_func_input_params.
  destruct (has_kwargs_param func_sig_params); cbn [negb].
  - eexists. split; [reflexivity|]. split; [auto|]. split; [auto | discriminate].
  - eexists. split; [reflexivity|]. split; [|split; [discriminate|]].
    + intros k v H. rewrite lookup_restricted in H. now case_bool_decide.
    + intros _ k [v H]. rewrite lookup_restricted in H.
      case_bool_decide; [|discriminate]. now apply elem_of_dom.
Qed.

(** X15.  Augmenting is idempotent: feeding the returned mapping back as the
    user arguments, with the same signature and triple, returns it
    unchanged. *)
Theorem append_workspace_triple_idempotent (func_sig_params : gmap string Param)
    (func_input_params_dict ws_triple_dict : option (gmap string V)) :
  let combined := augment func_sig_params func_input_params_dict ws_triple_dict in
  augment func_sig_params (Some combined) ws_triple_dict = combined.
Proof.
  cbn zeta. unfold append_workspace_triple_to_func_input_params. cbn [or_empty].
  apply map_eq. intros k. rewrite !lookup_layered.
  destruct (or_empty func_input_params_dict !! k); [reflexivity|].
  now destruct ((if negb (has_kwargs_param func_sig_params)
                 then filter (fun kv => fst kv ∈ dom func_sig_params) (or_empty ws_triple_dict)
                 else or_empty ws_triple_dict) !! k).
Qed.

(** X16.  Augmenting never drops a user argument and never invents a key:
    every key of the result is a user key or a triple key with the triple's
    value, and without a catch-all keyword parameter a key that is not the
    user's is the name of a declared parameter. *)
Theorem append_workspace_triple_keys (func_sig_params : gmap string Param)
    (func_input_params_dict ws_triple_dict : option (gmap string V)) (k : string) :
  let user := or_empty func_input_params_dict in
  let triple := or_empty ws_triple_dict in
  let combined := augment func_sig_params func_input_params_dict ws_triple_dict in
  (is_Some (user !! k) -> combined !! k = user !! k) /\
  (is_Some (combined !! k) ->
   is_Some (user !! k) \/ combined !! k = triple !! k) /\
  (has_kwargs_param func_sig_params = false ->
   is_Some (combined !! k) -> user !! k = None -> is_Some (func_sig_params !! k)).
Proof.
  cbn zeta.
  destruct (augment_union func_sig_params func_input_params_dict ws_triple_dict)
    as (avail & -> & Hsub & _ & Hdecl).
  rewrite lookup_layered. split; [|split].
  - intros [v ->]. reflexivity.
  - destruct (or_empty func_input_params_dict !! k) as [v|]; [left; eauto|].
    intros [v Hv]. right. rewrite Hv. symmetry. now apply Hsub.
  - intros Hk Hc Hu. rewrite Hu in Hc. now apply Hdecl.
Qed.

(** X17.  Nothing is injected when the function has no catch-all keyword
    parameter and declares none of the triple's keys, or when there is no
    triple: the result is the user's arguments. *)
Theorem append_workspace_triple_filtered_out (func_sig_params : gmap string Param)
    (func_input_params_dict ws_triple_dict : option (gmap string V)) :
  (has_kwargs_param func_sig_params = false ->
   (forall k, is_Some (or_empty ws_triple_dict !! k) -> func_sig_params !! k = None) ->
   augment func_sig_params func_input_params_dict ws_triple_dict =
   or_empty func_input_params_dict) /\
  augment func_sig_params func_input_params_dict None = or_empty func_input_params_dict.
Proof.
  split.
  - intros Hk Hnone. unfold append_workspace_triple_to_func_input_params.
    rewrite Hk. cbn [negb]. apply map_eq. intros k.
    rewrite lookup_layered, lookup_restricted.
    destruct (or_empty func_input_params_dict !! k); [reflexivity|].
    case_bool_decide as Hin; [|reflexivity].
    apply elem_of_dom in Hin.
    destruct (or_empty ws_triple_dict !! k) as [v|] eqn:E; [|reflexivity].
    rewrite Hnone in Hin by eauto. now destruct Hin.
  - unfold append_workspace_triple_to_func_input_params. cbn [or_empty].
    apply map_eq. intros k. rewrite lookup_layered.
    destruct (or_empty func_input_params_dict !! k); [reflexivity|].
    destruct (negb (has_kwargs_param func_sig_params)).
    + rewrite lookup_restricted. now case_bool_decide.
    + apply lookup_empty.
Qed.

End AugmenterFurther.

Lemma append_workspace_triple_keys_witness :
  let keyword := mk_Param DEmpty (Plain TEmpty) POSITIONAL_OR_KEYWORD in
  let triple : gmap string string :=
    {[ "subscription_id" := "sub"; "workspace_name" := "ws" ]} in
  let user : gmap string string := {[ "subscription_id" := "mine" ]} in
  append_workspace_triple_to_func_input_params
    {[ "subscription_id" := keyword ]} (Some user) (Some triple) !! "subscription_id"
  = Some "mine".
Proof.
  cbn zeta.
  rewrite (proj1 (append_workspace_triple_keys
                    {[ "subscription_id" :=
                         mk_Param DEmpty (Plain TEmpty) POSITIONAL_OR_KEYWORD ]}
                    (Some ({[ "subscription_id" := "mine" ]} : gmap string string))
                    (Some ({[ "subscription_id" := "sub"; "workspace_name" := "ws" ]}
                           : gmap string string))
                    "subscription_id")).
  - reflexivity.
  - eexists. reflexivity.
Defined.

Lemma append_workspace_triple_filtered_out_witness :
  let keyword := mk_Param DEmpty (Plain TEmpty) POSITIONAL_OR_KEYWORD in
  let triple : gmap string string := {[ "subscription_id" := "sub" ]} in
  let user : gmap string string := {[ "prefix" := "a" ]} in
  append_workspace_triple_to_func_input_params
    {[ "prefix" := keyword ]} (Some user) (Some triple) = user.
Proof.
  cbn zeta.
  rewrite (proj1 (append_workspace_triple_filtered_out
                    {[ "prefix" := mk_Param DEmpty (Plain TEmpty) POSITIONAL_OR_KEYWORD ]}
                    (Some ({[ "prefix" := "a" ]} : gmap string string))
                    (Some ({[ "subscription_id" := "sub" ]} : gmap string string)))).
  - reflexivity.
  - reflexivity.
  - intros k [v Hv]. cbn [or_empty] in Hv.
    apply lookup_singleton_Some in Hv as [<- _]. reflexivity.
Defined.

(** ** Function Path Loader *)

Lemma rsplit_dot_no_dot (s : string) : occurs "." s = false -> rsplit_dot s = None.
Proof. apply rsplit_dot_None. Qed.

Lemma rsplit_dot_app (a b : string) :
  occurs "." b = false -> rsplit_dot (a ++ "." ++ b) = Some (a, b).
Proof.
  intros Hb. induction a as [|c a IH].
  - rewrite append_nil_l, append_cons, append_nil_l. cbn [rsplit_dot].
    rewrite (rsplit_dot_no_dot b Hb). reflexivity.
  - rewrite append_cons. cbn [rsplit_dot]. now rewrite IH.
Qed.

Section LoaderFurther.

Variables pymodule pyobject : Type.
Variable import_module : string -> result pymodule.
Variable getattr : pymodule -> string -> result pyobject.
Variable callable : pyobject -> bool.
Variable object_str : pyobject -> string.

(** X18.  The path is split at its last dot: for a function name without a
    dot, [module_name.func_name] imports [module_name], whatever dots it
    has, and looks [func_name] up in it; the loader returns that attribute
    when it is callable, and raises when it is not. *)
Theorem load_function_from_function_path_last_dot
    (module_name func_name : string) (module : pymodule) (f : pyobject) :
  occurs "." func_name = false ->
  import_module module_name = Ok module ->
  getattr module func_name = Ok f ->
  rsplit_dot (module_name ++ "." ++ func_name) = Some (module_name, func_name) /\
  (callable f = true ->
   load_function_from_function_path pymodule pyobject import_module getattr callable
     object_str (module_name ++ "." ++ func_name) = Ok f) /\
  (callable f = false ->
   is_Ok (load_function_from_function_path pymodule pyobject import_module getattr callable
            object_str (module_name ++ "." ++ func_name)) = false).
Proof.
  intros Hdot Hi Hg.
  pose proof (rsplit_dot_app module_name func_name Hdot) as Hs.
  split; [exact Hs|].
  unfold load_function_from_function_path, load_function_body.
  rewrite Hs, Hi. cbn [bind]. rewrite Hg. cbn [bind].
  split; intros Hc; rewrite Hc; reflexivity.
Qed.

(** X19.  A path without a dot never reaches the interpreter: nothing is
    imported, and the error is the same function-path validation error in
    every environment, reporting the failed unpacking of the split. *)
Theorem load_function_from_function_path_no_dot (func_path : string) :
  occurs "." func_path = false ->
  load_function_from_function_path pymodule pyobject import_module getattr callable
    object_str func_path =
  Raise (FunctionPathValidationError
           ("Failed to parse function from function path: '" ++ func_path ++ "'. " ++
            format_hint ++ "Detailed error: " ++
            "not enough values to unpack (expected 2, got 1)")).
Proof.
  intros H. unfold load_function_from_function_path, load_function_body.
  now rewrite (rsplit_dot_no_dot func_path H).
Qed.

End LoaderFurther.

Lemma load_function_from_function_path_last_dot_witness :
  load_function_from_function_path string string sample_import sample_getattr
    sample_callable id "os.getcwd" = Ok "getcwd".
Proof.
  apply (proj1 (proj2 (load_function_from_function_path_last_dot string string
                         sample_import sample_getattr sample_callable id
                         "os" "getcwd" "os" "getcwd" eq_refl eq_refl eq_refl))).
  reflexivity.
Defined.

Lemma load_function_from_function_path_no_dot_witness :
  is_Ok (load_function_from_function_path string string sample_import sample_getattr
           sample_callable id "getcwd") = false.
Proof.
  rewrite (load_function_from_function_path_no_dot string string sample_import
             sample_getattr sample_callable id "getcwd" eq_refl).
  reflexivity.
Defined.

(** ** Prompt parameter of a provider *)

(** X20.  [get_prompt_param_name_from_func] gives the first annotated name
    whose annotation is [PromptTemplate], the annotations before it being
    something else, and nothing exactly when no annotation is
    [PromptTemplate]. *)
Theorem get_prompt_param_name_from_func_first (annotations : dict anno) :
  match get_prompt_param_name_from_func annotations with
  | Some k =>
      exists before a after,
        annotations = before ++ (k, a) :: after /\
        is_PromptTemplate a = true /\
        List.forallb (fun kv => negb (is_PromptTemplate (snd kv))) before = true
  | None =>
      List.forallb (fun kv => negb (is_PromptTemplate (snd kv))) annotations = true
  end.
Proof.
  induction annotations as [|[k a] rest IH]; [reflexivity|].
  cbn [get_prompt_param_name_from_func].
  destruct (is_PromptTemplate a) eqn:E.
  - exists [], a, rest. auto.
  - destruct (get_prompt_param_name_from_func rest) as [k'|].
    + destruct IH as (before & a' & after & -> & Ha & Hb).
      exists ((k, a) :: before), a', after. cbn [List.forallb snd app].
      rewrite E, Hb. auto.
    + cbn [List.forallb snd]. now rewrite E, IH.
Qed.

(** ** Class name of a method *)

Lemma occurs_app (c : ascii) (a b : string) :
  occurs c (a ++ b) = occurs c a || occurs c b.
Proof.
  induction a as [|x a IH]; [reflexivity|].
  rewrite append_cons. cbn [occurs]. now rewrite IH, orb_assoc.
Qed.

Section ClassNameFurther.

Variable py_str : pyval -> string.
Variable from_type : anno -> ValueType.

(** X21.  For a method of a class that is not nested, whose qualified name is
    the class name, a dot and the function name, the class name of the tool
    is the class name; for a plain function, whose qualified name has no dot,
    it is absent. *)
Theorem function_to_tool_definition_class_name_simple
    (c : Callable) (tool_type_arg : option string)
    (initialize_inputs : option (dict Param)) (tool : Tool) (cls : string) :
  function_to_tool_definition py_str from_type c tool_type_arg initialize_inputs = Ok tool ->
  (occurs "." (qualname (unwrapped c)) = false -> class_name tool = None) /\
  (qualname (unwrapped c) = (cls ++ "." ++ name (unwrapped c))%string ->
   occurs "." cls = false ->
   class_name tool = Some cls).
Proof.
  intros H.
  destruct (class_name_of_method py_str from_type c tool_type_arg initialize_inputs tool H)
    as [Hnone Hsome].
  split; [exact Hnone|]. intros Hq Hcls. apply Hsome; [exact Hq|].
  intros before rest -> Hrest. rewrite occurs_app in Hcls.
  apply orb_false_elim in Hcls as [_ Hr].
  destruct rest as [|x rest]; [discriminate|].
  cbn [occurs] in Hr. apply orb_false_elim in Hr as [Hx _].
  rewrite !append_cons, append_nil_l. cbn [String.prefix].
  destruct (ascii_dec "." x) as [E|]; [|reflexivity].
  subst x. now rewrite Ascii.eqb_refl in Hx.
Qed.

End ClassNameFurther.

Lemma function_to_tool_definition_class_name_simple_witness :
  let method :=
    mk_Callable (mk_pyfunc "MyTool.run" "run" "my_tools" (Some "Run the tool.")
                   [("self", mk_Param DEmpty (Plain TEmpty) POSITIONAL_OR_KEYWORD)])
      None in
  match function_to_tool_definition str_of_scalar from_type_by_name method None None with
  | Ok tool => class_name tool = Some "MyTool"
  | Raise _ => False
  end.
Proof.
  cbn zeta.
  destruct (function_to_tool_definition str_of_scalar from_type_by_name
              (mk_Callable
                 (mk_pyfunc "MyTool.run" "run" "my_tools" (Some "Run the tool.")
                    [("self", mk_Param DEmpty (Plain TEmpty) POSITIONAL_OR_KEYWORD)])
                 None) None None) as [tool|e] eqn:E.
  - apply (proj2 (function_to_tool_definition_class_name_simple _ _ _ _ _ _ "MyTool" E));
      reflexivity.
  - vm_compute in E. discriminate.
Defined.

(** ** Test fixture [setup_local_connection] *)

Section FixtureFurther.

Variable create_or_update : string -> dict pyval -> option exn.

Lemma create_connections_calls (entries : dict (dict pyval)) :
  forall calls,
    let '(calls', outcome) := create_connections create_or_update entries calls in
    exists made,
      calls' = calls ++ made /\
      (forall entry, In entry made -> In entry entries /\ not_bing entry = true) /\
      (outcome = Ok tt -> made = List.filter not_bing entries).
Proof.
  induction entries as [|[name dct] rest IH]; intros calls; cbn [create_connections].
  - exists []. rewrite app_nil_r. split; [reflexivity|].
    split; [intros entry [] | reflexivity].
  - unfold not_bing at 2. cbn [List.filter snd].
    destruct (is_bing dct) as [[|]|e] eqn:Eb.
    + specialize (IH calls).
      destruct (create_connections create_or_update rest calls) as [calls' outcome].
      destruct IH as (made & -> & Hin & Hok). exists made.
      split; [reflexivity|]. split; [|exact Hok].
      intros entry He. destruct (Hin entry He). split; [now right | assumption].
    + destruct (create_or_update name dct) as [e|].
      * exists [(name, dct)]. split; [reflexivity|]. split; [|discriminate].
        intros entry [<-|[]]. split; [now left|]. unfold not_bing. cbn [snd].
        now rewrite Eb.
      * specialize (IH (calls ++ [(name, dct)])).
        destruct (create_connections create_or_update rest (calls ++ [(name, dct)]))
          as [calls' outcome].
        destruct IH as (made & -> & Hin & Hok). exists ((name, dct) :: made).
        split; [now rewrite <- app_assoc|]. split.
        -- intros entry [<-|He].
           ++ split; [now left|]. unfold not_bing. cbn [snd]. now rewrite Eb.
           ++ destruct (Hin entry He). split; [now right | assumption].
        -- intros Ho. now rewrite (Hok Ho).
    + exists []. rewrite app_nil_r. split; [reflexivity|]. split; [|discriminate].
      intros entry [].
Qed.

(** X22.  A first call of [setup_local_connection] that returns has created,
    in file order, exactly the connections that are not Bing connections, and
    has set the flag; from then on every call returns at once and leaves the
    state as it is, whatever the file holds. *)
Theorem setup_local_connection_once
    (st st' : fixture_state) (connection_dict : dict (dict pyval)) :
  connection_setup st = false ->
  setup_local_connection create_or_update st connection_dict = (st', Ok tt) ->
  connection_setup st' = true /\
  created st' = created st ++ List.filter not_bing connection_dict /\
  forall later, setup_local_connection create_or_update st' later = (st', Ok tt).
Proof.
  intros Hflag. unfold setup_local_connection at 1. rewrite Hflag.
  pose proof (create_connections_calls connection_dict (created st)) as Hc.
  destruct (create_connections create_or_update connection_dict (created st))
    as [calls [[]|e]]; [|discriminate].
  destruct Hc as (made & -> & _ & Hok). intros E. inversion E; subst. clear E.
  cbn [connection_setup created]. split; [reflexivity|].
  split; [now rewrite (Hok eq_refl) | reflexivity].
Qed.

(** X23.  A call that raises leaves the flag unset, so that the next call
    tries again; whether it raises or not, the connections it has asked to
    create are entries of the file that are not Bing connections. *)
Theorem setup_local_connection_failure
    (st st' : fixture_state) (connection_dict : dict (dict pyval))
    (outcome : result unit) :
  connection_setup st = false ->
  setup_local_connection create_or_update st connection_dict = (st', outcome) ->
  (is_Ok outcome = false -> connection_setup st' = false) /\
  exists made,
    created st' = created st ++ made /\
    forall entry, In entry made -> In entry connection_dict /\ not_bing entry = true.
Proof.
  intros Hflag. unfold setup_local_connection. rewrite Hflag.
  pose proof (create_connections_calls connection_dict (created st)) as Hc.
  destruct (create_connections create_or_update connection_dict (created st))
    as [calls [[]|e]];
    destruct Hc as (made & -> & Hin & _); intros E; inversion E; subst; clear E;
    cbn [connection_setup created is_Ok].
  - split; [discriminate | eauto].
  - split; [reflexivity | eauto].
Qed.

End FixtureFurther.

Lemma setup_local_connection_once_witness :
  let file :=
    [("bing", [("type", PStr "BingConnection")]);
     ("aoai", [("type", PStr "AzureOpenAIConnection")])] in
  created (mk_fixture_state true [("aoai", [("type", PStr "AzureOpenAIConnection")])]) =
  [] ++ List.filter not_bing file.
Proof.
  apply (proj1 (proj2
    (setup_local_connection_once (fun _ _ => None)
       (mk_fixture_state false [])
       (mk_fixture_state true [("aoai", [("type", PStr "AzureOpenAIConnection")])])
       [("bing", [("type", PStr "BingConnection")]);
        ("aoai", [("type", PStr "AzureOpenAIConnection")])]
       eq_refl eq_refl))).
Defined.

Lemma setup_local_connection_failure_witness :
  connection_setup (mk_fixture_state false []) = false.
Proof.
  apply (proj1
    (setup_local_connection_failure (fun _ _ => None)
       (mk_fixture_state false []) (mk_fixture_state false [])
       [("broken", [("name", PStr "x")])]
       (Raise (mk_exn (OtherExceptionC "KeyError") "'type'"))
       eq_refl eq_refl)).
  reflexivity.
Defined.
